(* ===== verification/_CoqProject ===== *)
-Q . S2P
Prelude.v
PyStr.v
Regex.v
Rules.v
TextExtractor.v
ReportLayout.v
TextRiskScorer.v
RiskClassifier.v
ImageRiskScanner.v
Pipeline.v
Batch.v
CsvReport.v
