(* ===== verification/Prelude.v ===== *)
(** * Verification of the Automated Underwriting Platform (src/app.py)

    The program is one Python script.  It reads a file of free-text
    property inspection reports separated by a line "---", extracts six
    fields from each report with regular expressions ([parse_report]),
    scores the report with three keyword and age rules ([score_risk]),
    runs OCR on the photos of a directory and scores the recognised text
    with two keyword rules ([analyze_images]), merges each report with
    the photo whose file name contains its Property ID (a pandas
    DataFrame lookup in the main block), adds the two scores and maps
    the total to a risk level and a decision ([classify_risk]).

    ** Files and what they model

    - Prelude.v (this file): Python text as [list ascii] ([pystr], [py],
      [NL]); the exceptions the program raises ([py_exc]) and the
      [result] of a computation that may raise, with its bind notation
      [x <- c ;; k]; [map_result], a Python [for] loop that appends and
      stops at the first exception; generic list lemmas ([take_while],
      [drop_while], [Forall2_compose]); the hint databases [py] and
      [py_rw] and the tactic [inv_bind].
    - PyStr.v: the [str] builtins the code calls (library behaviour, not
      code of the repository): [lower] ([str.lower]),
      [strip], [contains] ([x in s]), [ends_with], [join], [split] (with
      its [ValueError] on an empty separator) and [py_int] ([int()]:
      whitespace, sign, underscores, [ValueError] otherwise), each with
      its characterisation ([contains_spec], [split_go_join], ...), and
      CPython's split loop [split_ref] with its equivalence to [split].
    - Regex.v: the fragment of Python's [re] library used by [parse_report]
      (labels, [\s], [\d], [.], [\$], [[\d,]] under [*], [+], [?],
      [{n}], one trailing group, [re.IGNORECASE]) with the backtracking
      semantics of CPython's engine in continuation-passing style
      ([mtch]), [match_at] (group 1 at one position) and [search]
      ([re.search]: leftmost position, proved by [search_Some]).
    - Rules.v: the abstract specification of a cumulative rule scorer
      (the spec's table of predicate, weight and reason), the class
      [RuleScorer] that tells a client the bounds of a scorer, and the
      laws of every table.
    - TextExtractor.v: [parse_report] (lines 49-62): the six patterns as
      data, [extract] and the record; closed forms of what each pattern
      captures ([match_at_property_id], [match_at_line], ...).
    - ReportLayout.v: [parse_report] on a whole report of the spec's
      layout ([report_text]): how [re.search] steps over the lines that
      do not hold a label and over text before a label inside a line,
      and the six values it returns.
    - TextRiskScorer.v: [score_risk] (lines 64-82) with the pair (score,
      reasons) threaded through the three [if] statements; the table
      [text_rules] it refines.
    - RiskClassifier.v: [classify_risk] (lines 84-90) and the order of the
      levels.
    - ImageRiskScanner.v: [analyze_images] (lines 20-44); the directory
      listing is an input and the OpenCV/Tesseract pair is the section
      variable [ocr : pystr -> result pystr], which may raise; the table
      [image_rules] its keyword checks refine.
    - Pipeline.v: [load_reports] (lines 16-18) and the main block (lines
      97-136): the first loop ([analyze_report]), the image scan, and the
      second loop ([combine_one]) with the DataFrame lookup
      ([image_lookup]: [KeyError] on a frame with no column), [squeeze]
      ([DataFrame.squeeze()]) and the [ValueError] that several matches
      cause in [classify_risk].
    - Batch.v: the spec's per-record pipeline as an abstract function
      [run] (one [UnderwritingRecord] per report: the text assessment,
      the first matching image or none, the classification of the
      total), the layout [row_of] of a record as the row the code builds,
      and the domain [main_domain] on which [main] returns.
    - CsvReport.v: the last step of the main block (lines 138-139):
      [to_csv] writes the header ([columns], the keys in the order the
      code inserts them) and one line per row ([row_cells]) with the
      defaults of Python's [csv] writer ([QUOTE_MINIMAL], doubled
      quotes, line feed); [z_str] is [str(int)]; [main_report] is the
      main block up to the file content; [read_csv] is a reader of the
      same dialect, used to state what the file holds.

    The files depend on each other in the order above.  Components talk
    through definitions and, where the spec states a contract, through an
    interface: a scorer tells its clients its bounds through the class
    [RuleScorer] (Rules.v), which TextRiskScorer.v and ImageRiskScanner.v
    instantiate and Pipeline.v uses.

    ** What the theorems show (claim ids C1-C34)

    - Classification (C1, C26, C27): the tiers and their inclusive
      bounds 4 and 7, monotonicity, the decision as a function of the
      level.
    - Scoring (C2, C3, C13, C14, C24, C25): both scorers refine their
      rule tables; scores are within 0..9 and 0..5; [int("N/A")] raises,
      and a parsed report fails to score exactly when it has no
      four-digit year.
    - Extraction (C11, C12, C18-C22, C31, C33, C34): the whole record
      on a report of the spec's layout, and that a label inside an
      earlier value (a Location holding "Condition:") supplies that
      field; the shape of each field
      (digits, four digits, digits and commas, single line), first-match
      and default semantics, the divergence that a blank label line takes
      its value from the next line, and that a label followed only by
      blanks at the end of the report gives [""] and not ["N/A"].
    - Images (C15-C17): one finding per image file in listing order,
      an OCR exception aborts the scan, and the extension test is
      case-sensitive.
    - Reconciliation and the batch (C4-C10, C23): the rows of a
      completed run correspond one to one, in order, to the reports; no
      match gives image score 0, one match adds its score, several
      matches raise, no image at all raises [KeyError], one report
      without a year aborts the batch, the spec's sample is rejected,
      and [load_reports] round-trips.
    - Refinement (C28, C32): [main] returns exactly on [main_domain] (a
      non-empty image table, a year in every report, at most one image
      per Property ID) and its rows are then [map row_of (run ...)];
      and it respects permutations of the directory listing (the
      [Proper] instance [main_listing_proper] for the relation
      [same_return]).
    - The report file (C29, C30): the program gets to writing its
      report whenever OCR does not raise, every report has a year, an
      image file exists and no identifier matches two images (C29,
      liveness); the file of a completed run, read by column name as
      [csv.DictReader] reads it ([dict_rows]), gives for every report in
      order the fields of the record of [run] ([record_dict]), each
      under the header that names it (C30).  Reading the file back
      ([to_csv_read]) works whatever commas, quotes and line feeds the
      texts hold.

    ** Bounds, fuel and what is not modelled

    Every loop of the program is structural on the text or on a list
    ([split_go] reads one character per step; the quantifiers of the
    regex engine recurse on the input).  Two reference definitions take
    fuel: [split_ref], CPython's split loop, with [length s + 1] (each
    cut consumes at least one character of a non-empty separator), and
    [digits_of] with [z + 1] for [z >= 0] (each digit divides by 10);
    [split_leftmost] and [py_int_str] show the fuel is enough.  Scores
    are Python integers, modelled in [Z]; they stay within 0..14.  Text
    is ASCII: Python's Unicode case folding, Unicode whitespace and
    digits beyond ASCII are outside the model.  The [csv] writer is
    modelled as CPython 3.12 and later writes it (a carriage return is
    quoted too); a row of one empty field, which [csv] writes as a pair
    of quotes, does not occur (every row has fifteen fields).  Not
    modelled: the named-entity pipeline [extract_text_entities] (an
    external library, never called), the inside of OpenCV and Tesseract
    (the [ocr] parameter stands for them), reading the reports file (its
    content is the input of [main]), [os.listdir] (its result is the
    input [listing], so a missing image directory, which raises
    [FileNotFoundError] in the code, is not represented), writing the CSV content to disk and
    the console output (lines 98, 109, 140-141: [print] of fixed text and
    pandas' table rendering, which has no effect on the result).

    The helper definitions of PyStr.v, Regex.v and CsvReport.v that
    model Python's and pandas' library behaviour ([str] methods, [re],
    [csv], [str(int)]) are not code of the repository: the manifest maps
    only the definitions that translate lines of src/app.py.

    The manifest names each mapped definition by the name it is
    declared with; every such name is declared once in the development.

    ** What is left

    Reports whose labels come in another order or are followed by tabs
    or several blanks are handled by the same lemmas ([search_skip],
    [search_skip_prefix] and the closed forms of TextExtractor.v) but
    have no whole-record theorem; the named-entity function, the inside
    of OpenCV and Tesseract, the file system and the console remain
    outside the model for the reasons above. *)

From stdpp Require Import base list strings decidable.
From Stdlib Require Import ZArith Lia Ascii.
From Stdlib Require String.

(** ** Python text values

    Python [str] values of the program are modelled as lists of ASCII
    characters; [py] turns a Rocq string literal into one.  Rocq string
    literals have no escape for the line feed, so it is the constant
    [NL]. *)

Declare Scope py_scope.
Delimit Scope py_scope with py.

Abbreviation pystr := (list ascii).

Definition py (s : string) : pystr := String.list_ascii_of_string s.

Definition NL : ascii := "010"%char.

(** ** Exceptions and the result of a Python computation

    A statement of [app.py] either returns a value or raises.  The
    exceptions that the program can raise on its own inputs are listed
    in [py_exc]; [CollaboratorError] is any exception raised inside an
    external library call (the OCR engine). *)

Inductive py_exc :=
  | ValueError (msg : pystr)
  | KeyError (key : pystr)
  | CollaboratorError (what : pystr).

Inductive result (A : Type) :=
  | Ok (a : A)
  | Raise (e : py_exc).
Arguments Ok {A} a.
Arguments Raise {A} e.

Definition bind {A B} (c : result A) (k : A -> result B) : result B :=
  match c with
  | Ok a => k a
  | Raise e => Raise e
  end.

Notation "x <- c ;; k" := (bind c (fun x => k))
  (at level 60, c at next level, right associativity) : py_scope.

Open Scope py_scope.

(** A Python [for] loop that appends [f x] for every [x] of a list: the
    first exception leaves the loop and propagates. *)
Fixpoint map_result {A B} (f : A -> result B) (l : list A) : result (list B) :=
  match l with
  | [] => Ok []
  | x :: l' => y <- f x ;; ys <- map_result f l' ;; Ok (y :: ys)
  end.

Definition is_ok {A} (r : result A) : bool :=
  match r with Ok _ => true | Raise _ => false end.

(** ** Automation *)

Create HintDb py discriminated.
Create Rewrite HintDb py_rw.

Lemma bind_Ok {A B} (c : result A) (k : A -> result B) (b : B) :
  bind c k = Ok b <-> exists a, c = Ok a /\ k a = Ok b.
Proof.
  destruct c as [a|e]; simpl; split.
  - eauto.
  - intros (a' & [= ->] & H); exact H.
  - discriminate.
  - intros (a' & ? & _); discriminate.
Qed.

Lemma bind_Raise {A B} (c : result A) (k : A -> result B) (e : py_exc) :
  bind c k = Raise e <-> c = Raise e \/ exists a, c = Ok a /\ k a = Raise e.
Proof.
  destruct c as [a|e']; simpl; split.
  - eauto.
  - intros [? | (a' & [= ->] & H)]; [discriminate | exact H].
  - intros [= ->]; auto.
  - intros [[= ->] | (a' & ? & _)]; [reflexivity | discriminate].
Qed.

(** Decompose every [bind] hypothesis that equals [Ok]. *)
Ltac inv_bind :=
  repeat match goal with
  | H : bind _ _ = Ok _ |- _ =>
      apply bind_Ok in H; destruct H as (? & ? & H)
  | H : Ok _ = Ok _ |- _ => injection H as H
  end.

Lemma map_result_Ok {A B} (f : A -> result B) (l : list A) (l' : list B) :
  map_result f l = Ok l' <-> Forall2 (fun x y => f x = Ok y) l l'.
Proof.
  revert l'; induction l as [|x l IH]; intros l'; simpl.
  - split; [intros [= <-]; constructor | intros H; inversion H; reflexivity].
  - rewrite bind_Ok. split.
    + intros (y & Hy & H). apply bind_Ok in H as (ys & Hys & [= <-]).
      constructor; [exact Hy | apply IH, Hys].
    + intros H; inversion H as [|? y ? ys Hy Hys]; subst.
      exists y; split; [exact Hy |].
      apply bind_Ok; exists ys; split; [apply IH, Hys | reflexivity].
Qed.

Lemma map_result_length {A B} (f : A -> result B) l l' :
  map_result f l = Ok l' -> length l' = length l.
Proof. rewrite map_result_Ok. intros H. symmetry. by eapply Forall2_length. Qed.

(** The first element whose step raises decides the exception of the
    whole loop. *)
Lemma map_result_Raise {A B} (f : A -> result B) (l : list A) (e : py_exc) :
  map_result f l = Raise e <->
  exists l1 x l2, l = l1 ++ x :: l2 /\ Forall (fun y => is_ok (f y) = true) l1
                  /\ f x = Raise e.
Proof.
  induction l as [|x l IH]; simpl.
  - split; [discriminate | intros ([|? ?] & ? & ? & ? & _); discriminate].
  - rewrite bind_Raise. split.
    + intros [Hx | (y & Hy & H)].
      * exists [], x, l. auto.
      * apply bind_Raise in H as [H | (ys & _ & [=])].
        apply IH in H as (l1 & z & l2 & -> & Hok & Hz).
        exists (x :: l1), z, l2. repeat split; [constructor; [rewrite Hy|]|]; auto.
    + intros ([|w l1] & z & l2 & Heq & Hok & Hz); simpl in Heq;
        injection Heq as -> ->; [now left |].
      inversion Hok as [|? ? Hw Hok']; subst.
      destruct (f w) as [y|e'] eqn:Hfw; [|discriminate].
      right. exists y; split; [reflexivity |].
      apply bind_Raise; left. apply IH. exists l1, z, l2. auto.
Qed.

#[export] Hint Resolve map_result_length : py.

(** ** Generic list functions and lemmas *)

Section Span.
Context {A : Type} (p : A -> bool).

Fixpoint take_while (l : list A) : list A :=
  match l with
  | x :: l' => if p x then x :: take_while l' else []
  | [] => []
  end.

Fixpoint drop_while (l : list A) : list A :=
  match l with
  | x :: l' => if p x then drop_while l' else l
  | [] => []
  end.

Lemma take_drop_while (l : list A) : take_while l ++ drop_while l = l.
Proof. induction l as [|x l IH]; simpl; [done |]. destruct (p x); simpl; congruence. Qed.

Lemma take_while_Forall (l : list A) : Forall (fun x => p x = true) (take_while l).
Proof.
  induction l as [|x l IH]; simpl; [constructor |].
  destruct (p x) eqn:E; [by constructor | constructor].
Qed.

Lemma drop_while_head (l : list A) (x : A) (l' : list A) :
  drop_while l = x :: l' -> p x = false.
Proof.
  induction l as [|y l IH]; simpl; [discriminate |].
  destruct (p y) eqn:E; [exact IH | intros [= -> _]; exact E].
Qed.

(** The prefix of [l] as long as [take_while l]. *)
Lemma take_length_take_while (l : list A) :
  take (length l - length (drop_while l)) l = take_while l.
Proof.
  rewrite <- (take_drop_while l) at 1 3. rewrite length_app.
  replace (length (take_while l) + length (drop_while l) - length (drop_while l))
    with (length (take_while l)) by lia.
  by rewrite take_app_length.
Qed.

Lemma drop_while_all (l : list A) :
  Forall (fun x => p x = true) l -> drop_while l = [].
Proof. induction 1 as [|x l Hx _ IH]; simpl; [done | by rewrite Hx]. Qed.

Lemma drop_while_app_all (w l : list A) :
  Forall (fun x => p x = true) w -> drop_while (w ++ l) = drop_while l.
Proof. induction 1 as [|x w Hx _ IH]; simpl; [done | by rewrite Hx]. Qed.

Lemma take_while_app_all (w l : list A) :
  Forall (fun x => p x = true) w -> take_while (w ++ l) = w ++ take_while l.
Proof. induction 1 as [|x w Hx _ IH]; simpl; [done | by rewrite Hx, IH]. Qed.
End Span.

Lemma take_while_ext {A} (p q : A -> bool) (l : list A) :
  (forall x, p x = q x) -> take_while p l = take_while q l.
Proof. intros H. induction l as [|x l IH]; simpl; [done |]. by rewrite H, IH. Qed.

Lemma drop_while_ext {A} (p q : A -> bool) (l : list A) :
  (forall x, p x = q x) -> drop_while p l = drop_while q l.
Proof. intros H. induction l as [|x l IH]; simpl; [done |]. by rewrite H, IH. Qed.

(** Left-biased choice between two outcomes: the first that succeeds. *)
Definition first_some {A} (o1 o2 : option A) : option A :=
  match o1 with
  | Some a => Some a
  | None => o2
  end.

Lemma first_some_None_r {A} (o : option A) : first_some o None = o.
Proof. by destruct o. Qed.

#[export] Hint Rewrite @first_some_None_r : py_rw.

Lemma Forall_filter_of {A} (P : A -> Prop) (Q : A -> Prop) `{forall x, Decision (Q x)} (l : list A) :
  Forall P l -> Forall P (filter Q l).
Proof.
  induction 1 as [|x l Hx _ IH]; [constructor |].
  rewrite list.filter_cons. case_decide; [by constructor | exact IH].
Qed.

Lemma Forall2_compose {A B C} (R : A -> B -> Prop) (S : B -> C -> Prop)
    (l1 : list A) (l2 : list B) (l3 : list C) :
  Forall2 R l1 l2 -> Forall2 S l2 l3 -> Forall2 (fun a c => exists b, R a b /\ S b c) l1 l3.
Proof.
  intros H12. revert l3. induction H12 as [|a b l1 l2 Hab _ IH]; intros l3 H23;
    inversion H23; subst; constructor; eauto.
Qed.

(** A loop whose every step returns does not raise. *)
Lemma map_result_total {A B} (f : A -> result B) (l : list A) :
  Forall (fun x => is_ok (f x) = true) l -> exists l', map_result f l = Ok l'.
Proof.
  induction 1 as [|x l Hx _ [l' IH]]; [eauto |]. simpl.
  destruct (f x) as [y|]; [| discriminate]. simpl. rewrite IH. eauto.
Qed.

Lemma filter_none {A} (P : A -> Prop) `{forall x, Decision (P x)} (l : list A) :
  Forall (fun x => ~ P x) l -> filter P l = [].
Proof.
  induction 1 as [|x l Hx _ IH]; [reflexivity |].
  rewrite list.filter_cons_False by exact Hx. exact IH.
Qed.

(** A loop whose step on every element returns [g x] returns the list
    of the [g x]. *)
Lemma map_result_map {A B} (f : A -> result B) (g : A -> B) (l : list A) :
  Forall (fun x => f x = Ok (g x)) l -> map_result f l = Ok (map g l).
Proof. induction 1 as [|x l Hx _ IH]; [done |]. simpl. by rewrite Hx, IH. Qed.

(** A loop that returns has returned on every element. *)
Lemma map_result_Ok_each {A B} (f : A -> result B) (l : list A) (l' : list B) :
  map_result f l = Ok l' -> Forall (fun x => is_ok (f x) = true) l.
Proof.
  rewrite map_result_Ok. induction 1 as [|x y l l' Hxy _ IH]; constructor; [by rewrite Hxy | exact IH].
Qed.

Lemma map_result_fmap {A B C} (f : B -> result C) (h : A -> B) (l : list A) :
  map_result f (map h l) = map_result (fun x => f (h x)) l.
Proof. induction l as [|x l IH]; simpl; [done |]. by rewrite IH. Qed.

(** A loop that returns on a list returns on every permutation of it,
    with the results permuted the same way. *)
Lemma map_result_Permutation {A B} (f : A -> result B) (xs xs' : list A) (ys : list B) :
  xs ≡ₚ xs' -> map_result f xs = Ok ys -> exists ys', map_result f xs' = Ok ys' /\ ys ≡ₚ ys'.
Proof.
  rewrite map_result_Ok. intros Hp H.
  destruct (Permutation_Forall2 Hp H) as (ys' & Hys & H').
  exists ys'. by rewrite map_result_Ok.
Qed.

(** A list of at most one element is the only permutation of itself. *)
Lemma Permutation_short {A} (l l' : list A) : l ≡ₚ l' -> length l <= 1 -> l = l'.
Proof.
  intros Hp Hlen. destruct l as [|x [|y l]]; simpl in Hlen; [| | lia].
  - symmetry. by apply Permutation_nil_r.
  - symmetry. by apply Permutation_length_1_inv.
Qed.

Lemma filter_map {A B} (P : B -> Prop) `{forall y, Decision (P y)} (f : A -> B) (l : list A) :
  filter P (map f l) = map f (filter (fun x => P (f x)) l).
Proof.
  induction l as [|x l IH]; [done |]. cbn [map]. rewrite !list.filter_cons.
  case_decide; cbn [map]; by rewrite IH.
Qed.
