(* ===== verification/PyStr.v ===== *)
(** * Python string primitives used by src/app.py

    The [str] methods and operators the program applies to its text:
    [c.isspace()], [s.lower()], [s.strip()], [x in s], [s.endswith(x)],
    [sep.join(l)], [s.split(sep)] and [int(s)], on ASCII text.  Each
    operation is an executable Fixpoint or Definition, followed by the
    lemma that characterises it. *)

From stdpp Require Import base list strings decidable.
From Stdlib Require Import ZArith Lia Ascii.
From S2P Require Import Prelude.

Open Scope py_scope.

(** ** Character classes *)

(** [str.isspace] on one ASCII character: tab, line feed, vertical
    tab, form feed, carriage return, the four separators 0x1c to 0x1f
    and the space.  The same set is [\s] of Python's [re] module. *)
Definition is_space (c : ascii) : bool :=
  let n := nat_of_ascii c in
  ((9 <=? n) && (n <=? 13)) || ((28 <=? n) && (n <=? 32)).

(** [\d] of [re], restricted to ASCII: ['0'] to ['9']. *)
Definition is_digit (c : ascii) : bool :=
  let n := nat_of_ascii c in (48 <=? n) && (n <=? 57).

Definition digit_value (c : ascii) : Z := Z.of_nat (nat_of_ascii c - 48).

(** [str.lower] on one ASCII character. *)
Definition lower_char (c : ascii) : ascii :=
  let n := nat_of_ascii c in
  if (65 <=? n) && (n <=? 90) then ascii_of_nat (n + 32) else c.

Definition lower (s : pystr) : pystr := map lower_char s.

(** ** Whitespace stripping *)

Fixpoint lstrip (s : pystr) : pystr :=
  match s with
  | c :: s' => if is_space c then lstrip s' else s
  | [] => []
  end.

Definition rstrip (s : pystr) : pystr := rev (lstrip (rev s)).

(** [s.strip()]: whitespace removed at both ends. *)
Definition strip (s : pystr) : pystr := rstrip (lstrip s).

(** ** Searching *)

(** [s.startswith(p)]. *)
Fixpoint starts_with (p s : pystr) : bool :=
  match p, s with
  | [], _ => true
  | c :: p', d :: s' => bool_decide (c = d) && starts_with p' s'
  | _ :: _, [] => false
  end.

(** [s.endswith(x)]. *)
Definition ends_with (x s : pystr) : bool := starts_with (rev x) (rev s).

(** [needle in hay]: some suffix of [hay] starts with [needle]. *)
Fixpoint contains (needle hay : pystr) : bool :=
  starts_with needle hay ||
  match hay with
  | [] => false
  | _ :: hay' => contains needle hay'
  end.

(** The relation that [contains] decides. *)
Definition infix (needle hay : pystr) : Prop :=
  exists a b, hay = a ++ needle ++ b.

(** ** Joining *)

(** [sep.join(l)]. *)
Fixpoint join (sep : pystr) (l : list pystr) : pystr :=
  match l with
  | [] => []
  | [x] => x
  | x :: l' => x ++ sep ++ join sep l'
  end.

(** ** Splitting

    [s.split(sep)] cuts [s] at the leftmost occurrence of [sep], then at
    the leftmost occurrence in the rest, and so on.  The loop reads [s]
    one character at a time into the current piece [cur] (kept reversed);
    as soon as the piece ends with [sep] the separator is removed and the
    piece is emitted.  The first end of an occurrence is the end of the
    leftmost one, since all occurrences have the length of [sep]. *)
Fixpoint split_go (sep s cur : pystr) : list pystr :=
  match s with
  | [] => [rev cur]
  | x :: s' =>
      if starts_with (rev sep) (x :: cur)
      then rev (drop (length sep) (x :: cur)) :: split_go sep s' []
      else split_go sep s' (x :: cur)
  end.

(** Python raises [ValueError("empty separator")] for [sep = ""]. *)
Definition split (sep s : pystr) : result (list pystr) :=
  match sep with
  | [] => Raise (ValueError (py "empty separator"))
  | _ :: _ => Ok (split_go sep s [])
  end.

(** The loop of CPython's [split] ([stringlib/split.h]): find the
    leftmost occurrence of [sep] in the rest of the string, emit the
    piece before it, continue after it; [find_sep] is the search. *)
Fixpoint find_sep (sep s : pystr) : option nat :=
  if starts_with sep s then Some 0
  else match s with
       | [] => None
       | _ :: s' => option_map S (find_sep sep s')
       end.

Fixpoint split_ref (fuel : nat) (sep s : pystr) : list pystr :=
  match fuel with
  | O => [s]
  | S f =>
      match find_sep sep s with
      | Some i => take i s :: split_ref f sep (drop (i + length sep) s)
      | None => [s]
      end
  end.

(** ** Integer parsing

    [int(s)] in base 10: surrounding whitespace is ignored, one sign is
    allowed, and the digits may be grouped by single underscores
    (["1_000"]); anything else raises [ValueError]. *)
Fixpoint int_body_ok (l : pystr) : bool :=
  match l with
  | [] => false
  | d :: r =>
      is_digit d &&
      match r with
      | [] => true
      | u :: r' => if bool_decide (u = "_"%char) then int_body_ok r' else int_body_ok r
      end
  end.

Fixpoint digits_acc (acc : Z) (l : pystr) : Z :=
  match l with
  | [] => acc
  | d :: r =>
      if bool_decide (d = "_"%char) then digits_acc acc r
      else digits_acc (10 * acc + digit_value d) r
  end.

Definition int_sign (t : pystr) : Z * pystr :=
  match t with
  | c :: b =>
      if bool_decide (c = "-"%char) then (-1, b)%Z
      else if bool_decide (c = "+"%char) then (1, b)%Z
      else (1, t)%Z
  | [] => (1%Z, [])
  end.

Definition py_int (s : pystr) : result Z :=
  let (sg, body) := int_sign (strip s) in
  if int_body_ok body then Ok (sg * digits_acc 0 body)%Z
  else Raise (ValueError (py "invalid literal for int() with base 10: " ++ "'"%char :: s ++ ["'"%char])).

(** ** Searching: characterisations *)

Lemma starts_with_spec (p s : pystr) :
  starts_with p s = true <-> exists r, s = p ++ r.
Proof.
  revert s; induction p as [|c p IH]; intros [|d s]; simpl.
  - split; eauto.
  - split; eauto.
  - split; [discriminate | intros [r Hr]; discriminate].
  - rewrite andb_true_iff, bool_decide_eq_true, IH. split.
    + intros [-> [r ->]]. eauto.
    + intros [r [= -> ->]]. eauto.
Qed.

Lemma infix_cons_iff (n : pystr) (x : ascii) (h : pystr) :
  infix n (x :: h) <-> (exists r, x :: h = n ++ r) \/ infix n h.
Proof.
  split.
  - intros ([|y a] & b & Hb); simpl in Hb.
    + left; eauto.
    + injection Hb as -> ->. right. eexists _, _. reflexivity.
  - intros [[r Hr] | (a & b & ->)].
    + exists [], r. exact Hr.
    + exists (x :: a), b. reflexivity.
Qed.

Lemma contains_spec (n h : pystr) : contains n h = true <-> infix n h.
Proof.
  induction h as [|x h IH]; simpl; rewrite orb_true_iff, starts_with_spec.
  - split.
    + intros [[r Hr] | ?]; [exists [], r; exact Hr | discriminate].
    + intros ([|? ?] & b & Hb); [left; eauto | discriminate].
  - rewrite IH, infix_cons_iff. reflexivity.
Qed.

#[export] Instance infix_dec (n h : pystr) : Decision (infix n h).
Proof.
  destruct (contains n h) eqn:E.
  - left. apply contains_spec, E.
  - right. rewrite <- contains_spec, E. discriminate.
Defined.

Lemma ends_with_spec (x s : pystr) : ends_with x s = true <-> exists r, s = r ++ x.
Proof.
  unfold ends_with. rewrite starts_with_spec. split.
  - intros [r Hr]. exists (rev r).
    rewrite <- (rev_involutive s), Hr, rev_app_distr, rev_involutive. reflexivity.
  - intros [r ->]. exists (rev r). apply rev_app_distr.
Qed.

Lemma infix_app_l (n a b : pystr) : infix n a -> infix n (a ++ b).
Proof. intros (u & v & ->). exists u, (v ++ b). by rewrite <- !app_assoc. Qed.

Lemma infix_app_r (n a b : pystr) : infix n b -> infix n (a ++ b).
Proof. intros (u & v & ->). exists (a ++ u), v. by rewrite <- !app_assoc. Qed.

(** An occurrence in [l ++ [x]] is in [l] or ends the string. *)
Lemma infix_snoc (n l : pystr) (x : ascii) :
  infix n (l ++ [x]) -> infix n l \/ exists r, l ++ [x] = r ++ n.
Proof.
  intros (a & b & Hab). destruct b as [|y b] using rev_ind.
  - right. exists a. by rewrite app_nil_r in Hab.
  - left. rewrite !app_assoc in Hab. apply app_inj_tail in Hab as [-> _].
    exists a, b. by rewrite <- !app_assoc.
Qed.

Lemma infix_nil_inv (n : pystr) : infix n [] -> n = [].
Proof. intros (a & b & H). by destruct a, n. Qed.

(** ** Case conversion *)

Ltac ascii_cases c :=
  destruct c as [[] [] [] [] [] [] [] []]; reflexivity.

Lemma lower_char_idem (c : ascii) : lower_char (lower_char c) = lower_char c.
Proof. ascii_cases c. Qed.

Lemma lower_idem (s : pystr) : lower (lower s) = lower s.
Proof. unfold lower. rewrite map_map. apply map_ext, lower_char_idem. Qed.

Lemma lower_app (s t : pystr) : lower (s ++ t) = lower s ++ lower t.
Proof. apply map_app. Qed.

Lemma length_lower (s : pystr) : length (lower s) = length s.
Proof. apply length_map. Qed.

(** Lower-casing does not move a character in or out of [\s] or [\d]. *)
Lemma is_space_lower_char (c : ascii) : is_space (lower_char c) = is_space c.
Proof. ascii_cases c. Qed.

Lemma is_digit_lower_char (c : ascii) : is_digit (lower_char c) = is_digit c.
Proof. ascii_cases c. Qed.

#[export] Hint Rewrite lower_idem lower_app length_lower lower_char_idem : py_rw.

(** ** Stripping: characterisations *)

Lemma lstrip_spec (s : pystr) :
  exists w, s = w ++ lstrip s /\ Forall (fun c => is_space c = true) w.
Proof.
  induction s as [|c s (w & Hw & Hsp)]; simpl.
  - exists []. auto.
  - destruct (is_space c) eqn:E.
    + exists (c :: w). split; [simpl; by f_equal | by constructor].
    + exists []. auto.
Qed.

Lemma lstrip_all_space (s : pystr) :
  Forall (fun c => is_space c = true) s -> lstrip s = [].
Proof. induction 1 as [|c s Hc _ IH]; simpl; [done | by rewrite Hc]. Qed.

Lemma lstrip_head (c : ascii) (s : pystr) :
  is_space c = false -> lstrip (c :: s) = c :: s.
Proof. intros H. simpl. by rewrite H. Qed.

Lemma lstrip_app_space (w s : pystr) :
  Forall (fun c => is_space c = true) w -> lstrip (w ++ s) = lstrip s.
Proof. induction 1 as [|c w Hc _ IH]; simpl; [done | by rewrite Hc]. Qed.

(** A string that starts and ends with a non-space character is left
    unchanged by [strip]. *)
Lemma strip_id (c : ascii) (s : pystr) (d : ascii) :
  is_space c = false -> is_space d = false -> strip (c :: s ++ [d]) = c :: s ++ [d].
Proof.
  intros Hc Hd. unfold strip, rstrip. rewrite lstrip_head by exact Hc.
  rewrite app_comm_cons, rev_app_distr. simpl (rev [d]).
  change ([d] ++ rev (c :: s)) with (d :: rev (c :: s)).
  rewrite lstrip_head by exact Hd.
  change (d :: rev (c :: s)) with (rev [d] ++ rev (c :: s)).
  rewrite <- rev_app_distr. apply rev_involutive.
Qed.

Lemma strip_single (c : ascii) : is_space c = false -> strip [c] = [c].
Proof. intros Hc. unfold strip, rstrip. simpl. by rewrite Hc; simpl; rewrite Hc. Qed.

(** Every character of the string is a non-space: [strip] is the identity. *)
Lemma strip_no_space (s : pystr) :
  Forall (fun c => is_space c = false) s -> strip s = s.
Proof.
  intros H. destruct s as [|c s]; [done |].
  inversion H as [|? ? Hc Hs]; subst.
  destruct s as [|d s _] using rev_ind; [by apply strip_single |].
  apply Forall_app in Hs as [_ Hd]. inversion Hd.
  by apply strip_id.
Qed.

Lemma strip_all_space (s : pystr) :
  Forall (fun c => is_space c = true) s -> strip s = [].
Proof. intros H. unfold strip, rstrip. rewrite (lstrip_all_space s H). reflexivity. Qed.

#[export] Hint Resolve strip_no_space strip_all_space : py.

(** ** Splitting and joining *)

Lemma join_cons (sep x : pystr) (l : list pystr) :
  l <> [] -> join sep (x :: l) = x ++ sep ++ join sep l.
Proof. destruct l; [done | reflexivity]. Qed.

Lemma split_go_nonempty (sep s cur : pystr) : split_go sep s cur <> [].
Proof.
  revert cur; induction s as [|x s IH]; intros cur; simpl; [done |].
  destruct (starts_with _ _); [done | apply IH].
Qed.

(** The piece that ends with the separator, with the separator removed. *)
Lemma cut_piece (sep cur : pystr) (x : ascii) :
  starts_with (rev sep) (x :: cur) = true ->
  rev cur ++ [x] = rev (drop (length sep) (x :: cur)) ++ sep.
Proof.
  intros E. apply starts_with_spec in E as [r Hr].
  change (rev cur ++ [x]) with (rev (x :: cur)). rewrite Hr.
  rewrite <- length_rev, drop_app_length, rev_app_distr, rev_involutive.
  reflexivity.
Qed.

Lemma split_go_join (sep s cur : pystr) :
  join sep (split_go sep s cur) = rev cur ++ s.
Proof.
  revert cur; induction s as [|x s IH]; intros cur; simpl; [by rewrite app_nil_r |].
  destruct (starts_with (rev sep) (x :: cur)) eqn:E.
  - rewrite join_cons by apply split_go_nonempty. rewrite IH; simpl.
    rewrite (app_assoc _ sep s), <- (cut_piece _ _ _ E), <- app_assoc. reflexivity.
  - rewrite IH. simpl. by rewrite <- app_assoc.
Qed.

Lemma split_go_no_sep (sep s cur : pystr) :
  sep <> [] -> ~ infix sep (rev cur) ->
  Forall (fun p => ~ infix sep p) (split_go sep s cur).
Proof.
  intros Hne. revert cur; induction s as [|x s IH]; intros cur Hcur; simpl.
  - by constructor.
  - destruct (starts_with (rev sep) (x :: cur)) eqn:E.
    + constructor; [| apply IH; intros Hi; apply Hne, infix_nil_inv, Hi].
      intros Hp. apply Hcur.
      pose proof (cut_piece _ _ _ E) as Hcut.
      set (p := rev (drop (length sep) (x :: cur))) in *.
      destruct (exists_last Hne) as (sep' & y & Hsep). rewrite Hsep, app_assoc in Hcut.
      apply app_inj_tail in Hcut as [Hcut _]. rewrite Hcut. by apply infix_app_l.
    + apply IH. change (x :: cur) with ([x] ++ cur). rewrite rev_app_distr.
      intros [Hi | [r Hr]]%infix_snoc; [done |].
      assert (starts_with (rev sep) (x :: cur) = true) as E'; [| congruence].
      apply starts_with_spec. exists (rev r).
      rewrite <- (rev_involutive (x :: cur)).
      change (rev (x :: cur)) with (rev cur ++ [x]). by rewrite Hr, rev_app_distr.
Qed.

(** ** Splitting: equivalence with the leftmost-occurrence loop *)

Lemma find_sep_None (sep t : pystr) : ~ infix sep t -> find_sep sep t = None.
Proof.
  induction t as [|x t IH]; intros Ht; simpl.
  - destruct (starts_with sep []) eqn:E; [| done].
    apply starts_with_spec in E as [r Hr]. destruct Ht. exists [], r. exact Hr.
  - destruct (starts_with sep (x :: t)) eqn:E.
    + apply starts_with_spec in E as [r Hr]. destruct Ht. exists [], r. exact Hr.
    + rewrite IH; [done |]. intros Hi. apply Ht, infix_cons_iff. by right.
Qed.

Lemma find_sep_eq (sep s : pystr) :
  find_sep sep s =
  if starts_with sep s then Some 0
  else match s with [] => None | _ :: s' => option_map S (find_sep sep s') end.
Proof. by destruct s. Qed.

Lemma find_sep_leftmost (sep q r : pystr) :
  (forall a b, q ++ sep ++ r = a ++ sep ++ b -> length q <= length a) ->
  find_sep sep (q ++ sep ++ r) = Some (length q).
Proof.
  induction q as [|y q IH]; intros Hleft; rewrite find_sep_eq; cbn [app].
  - by rewrite (proj2 (starts_with_spec sep (sep ++ r)) (ex_intro _ r eq_refl)).
  - destruct (starts_with sep (y :: q ++ sep ++ r)) eqn:E.
    + apply starts_with_spec in E as [b Hb].
      specialize (Hleft [] b Hb). simpl in Hleft. lia.
    + rewrite IH; [done |]. intros a b Hab.
      assert (length (y :: q) <= length (y :: a)) by (apply (Hleft (y :: a) b); simpl; by rewrite Hab).
      simpl in *. lia.
Qed.

(** An occurrence that ends the buffer, in a buffer with no earlier
    occurrence, is the leftmost one of the whole string. *)
Lemma leftmost_of_no_infix (sep p q r : pystr) (x : ascii) :
  ~ infix sep p -> p ++ [x] = q ++ sep ->
  forall a b, q ++ sep ++ r = a ++ sep ++ b -> length q <= length a.
Proof.
  intros Hp Hpx a b Hab. destruct (decide (length q <= length a)) as [| Hlt]; [done |].
  exfalso. apply Hp.
  assert (Hlen : length (p ++ [x]) = length (q ++ sep)) by (by rewrite Hpx).
  rewrite !length_app in Hlen. simpl in Hlen.
  assert (Htake : take (length (a ++ sep)) p = a ++ sep).
  { rewrite <- (take_app_le p (x :: r)) by (rewrite length_app; lia).
    replace (p ++ x :: r) with (a ++ sep ++ b)
      by (rewrite <- Hab, app_assoc, <- Hpx, <- app_assoc; reflexivity).
    rewrite app_assoc. apply take_app_length. }
  exists a, (drop (length (a ++ sep)) p).
  rewrite app_assoc, <- Htake at 1. by rewrite take_drop.
Qed.

Lemma starts_with_rev_snoc (sep cur : pystr) (x : ascii) :
  (exists r, rev cur ++ [x] = r ++ sep) -> starts_with (rev sep) (x :: cur) = true.
Proof.
  intros [r Hr]. apply starts_with_spec. exists (rev r).
  rewrite <- rev_app_distr, <- Hr, rev_app_distr, rev_involutive. reflexivity.
Qed.

Lemma split_go_ref (sep s cur : pystr) (fuel : nat) :
  sep <> [] -> ~ infix sep (rev cur) -> length (rev cur ++ s) < fuel ->
  split_go sep s cur = split_ref fuel sep (rev cur ++ s).
Proof.
  intros Hne. revert cur fuel. induction s as [|x s IH]; intros cur fuel Hcur Hfuel.
  - destruct fuel as [|f]; [lia |]. rewrite app_nil_r. cbn [split_go split_ref].
    by rewrite find_sep_None.
  - cbn [split_go]. destruct (starts_with (rev sep) (x :: cur)) eqn:E.
    + pose proof (cut_piece _ _ _ E) as Hcut.
      set (q := rev (drop (length sep) (x :: cur))) in *.
      replace (rev cur ++ x :: s) with (q ++ sep ++ s) in *
        by (rewrite app_assoc, <- Hcut, <- app_assoc; reflexivity).
      destruct fuel as [|f]; [lia |]. cbn [split_ref].
      rewrite find_sep_leftmost by exact (leftmost_of_no_infix _ _ _ _ _ Hcur Hcut).
      rewrite take_app_length, app_assoc, <- length_app, drop_app_length.
      f_equal. apply IH; [intros Hi; apply Hne, infix_nil_inv, Hi |].
      rewrite !length_app in Hfuel. destruct sep; [done |]. simpl in *. lia.
    + replace (rev cur ++ x :: s) with (rev (x :: cur) ++ s) in *
        by (simpl; by rewrite <- app_assoc).
      apply IH; [| exact Hfuel]. simpl. intros Hi.
      destruct (infix_snoc _ _ _ Hi) as [Hin | Hend]; [by apply Hcur |].
      rewrite starts_with_rev_snoc in E by exact Hend. discriminate.
Qed.

(** ** Integer parsing: the decimal case *)

Ltac ascii_cases_by c tac :=
  destruct c as [[] [] [] [] [] [] [] []]; tac.

Lemma digit_not_space (c : ascii) : is_digit c = true -> is_space c = false.
Proof. ascii_cases_by c ltac:(intros H; (reflexivity || discriminate H)). Qed.

Lemma digit_not_special (c : ascii) :
  is_digit c = true -> c <> "_"%char /\ c <> "-"%char /\ c <> "+"%char.
Proof.
  ascii_cases_by c ltac:(intros H; (discriminate H || (repeat split; discriminate))).
Qed.

Lemma digit_value_bound (c : ascii) : is_digit c = true -> (0 <= digit_value c <= 9)%Z.
Proof.
  unfold is_digit, digit_value. rewrite andb_true_iff, !Nat.leb_le. lia.
Qed.

Lemma int_body_ok_digits (l : pystr) :
  l <> [] -> Forall (fun c => is_digit c = true) l -> int_body_ok l = true.
Proof.
  intros Hne H. induction H as [|d r Hd Hr IH]; [done |]. simpl. rewrite Hd. simpl.
  destruct r as [|u r']; [done |].
  inversion Hr as [|? ? Hu _]; subst.
  rewrite bool_decide_false by apply (digit_not_special _ Hu). by apply IH.
Qed.

Lemma digits_acc_bound (l : pystr) (acc : Z) :
  Forall (fun c => is_digit c = true) l -> (0 <= acc)%Z ->
  (0 <= digits_acc acc l < (acc + 1) * 10 ^ Z.of_nat (length l))%Z.
Proof.
  intros H; revert acc. induction H as [|d r Hd Hr IH]; intros acc Hacc; simpl.
  - lia.
  - rewrite bool_decide_false by apply (digit_not_special _ Hd).
    pose proof (digit_value_bound _ Hd).
    specialize (IH (10 * acc + digit_value d)%Z ltac:(lia)).
    rewrite Nat2Z.inj_succ, Z.pow_succ_r by lia. nia.
Qed.

(** [int(s)] of a non-empty string of decimal digits is its value. *)
Lemma py_int_digits (l : pystr) :
  l <> [] -> Forall (fun c => is_digit c = true) l -> py_int l = Ok (digits_acc 0 l).
Proof.
  intros Hne H. unfold py_int.
  rewrite strip_no_space by (eapply Forall_impl; [apply digit_not_space | exact H]).
  destruct l as [|d r]; [done |]. inversion H as [|? ? Hd _]; subst.
  destruct (digit_not_special _ Hd) as (_ & Hm & Hp). simpl.
  rewrite !bool_decide_false by assumption.
  rewrite int_body_ok_digits by assumption. by rewrite Z.mul_1_l.
Qed.

(** [strip] keeps a middle part of the string. *)
Lemma strip_infix (s : pystr) : exists a b, s = a ++ strip s ++ b.
Proof.
  destruct (lstrip_spec s) as (w & Hw & _).
  destruct (lstrip_spec (rev (lstrip s))) as (w' & Hw' & _).
  exists w, (rev w'). unfold strip, rstrip.
  rewrite <- rev_app_distr, <- Hw', rev_involutive. exact Hw.
Qed.

Lemma strip_Forall (P : ascii -> Prop) (s : pystr) : Forall P s -> Forall P (strip s).
Proof.
  destruct (strip_infix s) as (a & b & Hs). rewrite Hs at 1.
  rewrite !Forall_app. tauto.
Qed.

(** [split] with a non-empty separator computes what CPython's loop
    computes: the piece up to the leftmost occurrence of the separator,
    then the split of the rest after it. *)
Lemma split_leftmost (sep s : pystr) :
  sep <> [] -> split sep s = Ok (split_ref (S (length s)) sep s).
Proof.
  intros Hne. destruct sep as [|c sep']; [done |]. unfold split. f_equal.
  apply (split_go_ref _ s []); [done | intros Hi; by apply infix_nil_inv in Hi | simpl; lia].
Qed.
