(* ===== verification/Regex.v ===== *)
(** * The fragment of Python's [re] used by [parse_report]

    [parse_report] (src/app.py, lines 50-62) calls
    [re.search(pattern, text, re.IGNORECASE)] with six patterns.  All of
    them are a literal label, character classes ([\s], [\d], [.],
    [\$], [[\d,]]) under the quantifiers [*], [+], [?] and [{n}], and one
    capturing group that ends the pattern.  This file gives that
    fragment an abstract syntax ([cclass], [regex], [pattern]) and the
    backtracking semantics of CPython's [sre] engine:

    - [mtch] runs a regex in continuation-passing style: a quantifier is
      greedy, tries its longest repetition first and gives characters back
      one at a time when the rest of the pattern fails;
    - [match_at] matches a pattern at one position and returns the text
      of group 1;
    - [search] tries every start position from left to right, as
      [re.search] does, and returns the first match.

    The lemmas give the closed forms of the greedy quantifiers that the
    extractor's proofs rely on. *)

From stdpp Require Import base list strings decidable.
From Stdlib Require Import ZArith Lia Ascii.
From S2P Require Import Prelude PyStr.

Open Scope py_scope.

(** ** Syntax *)

(** A class of one character: [\s], [\d], [.] (anything but a line
    feed), a literal character, or a bracket expression. *)
Inductive cclass :=
  | CSpace
  | CDigit
  | CAny
  | CChar (c : ascii)
  | CUnion (k1 k2 : cclass).

Inductive regex :=
  | RStr (w : pystr)
  | RAtom (k : cclass)
  | RStar (k : cclass)
  | RPlus (k : cclass)
  | ROpt (k : cclass)
  | RRep (n : nat) (k : cclass)
  | RSeq (r1 r2 : regex).

(** [prefix (group)]: a pattern whose capturing group 1 ends it. *)
Record pattern := Pattern { pat_prefix : regex; pat_group : regex }.

(** ** Semantics *)

(** Character comparison; under [re.IGNORECASE] both sides are
    compared lower-cased. *)
Definition char_eq (icase : bool) (c x : ascii) : bool :=
  if icase then bool_decide (lower_char c = lower_char x) else bool_decide (c = x).

Fixpoint cls_match (icase : bool) (k : cclass) (x : ascii) : bool :=
  match k with
  | CSpace => is_space x
  | CDigit => is_digit x
  | CAny => negb (bool_decide (x = NL))
  | CChar c => char_eq icase c x
  | CUnion k1 k2 => cls_match icase k1 x || cls_match icase k2 x
  end.

Section Matcher.
Context {A : Type} (icase : bool).

Fixpoint m_str (w s : pystr) (k : pystr -> option A) : option A :=
  match w, s with
  | [], _ => k s
  | c :: w', x :: s' => if char_eq icase c x then m_str w' s' k else None
  | _ :: _, [] => None
  end.

(** [c*], greedy: first the longest run, then shorter ones. *)
Fixpoint m_star (c : cclass) (s : pystr) (k : pystr -> option A) : option A :=
  match s with
  | x :: s' =>
      if cls_match icase c x then first_some (m_star c s' k) (k s) else k s
  | [] => k []
  end.

Fixpoint m_rep (n : nat) (c : cclass) (s : pystr) (k : pystr -> option A) : option A :=
  match n with
  | 0 => k s
  | S n' =>
      match s with
      | x :: s' => if cls_match icase c x then m_rep n' c s' k else None
      | [] => None
      end
  end.

Fixpoint mtch (r : regex) (s : pystr) (k : pystr -> option A) : option A :=
  match r with
  | RStr w => m_str w s k
  | RAtom c =>
      match s with
      | x :: s' => if cls_match icase c x then k s' else None
      | [] => None
      end
  | RStar c => m_star c s k
  | RPlus c =>
      match s with
      | x :: s' => if cls_match icase c x then m_star c s' k else None
      | [] => None
      end
  | ROpt c =>
      match s with
      | x :: s' => if cls_match icase c x then first_some (k s') (k s) else k s
      | [] => k []
      end
  | RRep n c => m_rep n c s k
  | RSeq r1 r2 => mtch r1 s (fun s' => mtch r2 s' k)
  end.
End Matcher.

(** Match at the start of [s]; the result is the text of group 1, the
    part of the input between the end of the prefix and the end of the
    group. *)
Definition match_at (icase : bool) (p : pattern) (s : pystr) : option pystr :=
  mtch icase (pat_prefix p) s
    (fun s1 => mtch icase (pat_group p) s1
                 (fun s2 => Some (take (length s1 - length s2) s1))).

(** [re.search(p, s)]: the first start position that matches. *)
Fixpoint search (icase : bool) (p : pattern) (s : pystr) : option pystr :=
  first_some (match_at icase p s)
    (match s with
     | [] => None
     | _ :: s' => search icase p s'
     end).

(** [w] is a prefix of [s], character by character under [char_eq]. *)
Fixpoint prefix_ci (icase : bool) (w s : pystr) : bool :=
  match w, s with
  | [], _ => true
  | c :: w', x :: s' => char_eq icase c x && prefix_ci icase w' s'
  | _ :: _, [] => false
  end.

(** The last character of a string that is not a line feed. *)
Fixpoint last_non_nl (s : pystr) : option ascii :=
  match s with
  | [] => None
  | x :: s' =>
      first_some (last_non_nl s') (if bool_decide (x = NL) then None else Some x)
  end.

(** ** The quantifiers in closed form *)

Section Closed.
Context {A : Type} (icase : bool).

Lemma m_str_spec (w s : pystr) (k : pystr -> option A) :
  m_str icase w s k = if prefix_ci icase w s then k (drop (length w) s) else None.
Proof.
  revert s; induction w as [|c w IH]; intros [|x s]; simpl; try done.
  destruct (char_eq icase c x); [apply IH | done].
Qed.

(** The longest run is tried first: when the rest matches after it,
    that is the match. *)
Lemma m_star_longest (c : cclass) (s : pystr) (k : pystr -> option A) (a : A) :
  k (drop_while (cls_match icase c) s) = Some a -> m_star icase c s k = Some a.
Proof.
  induction s as [|x s IH]; simpl; [done |].
  destruct (cls_match icase c x); [intros H; by rewrite IH | done].
Qed.

(** When the rest cannot start with a character of the class, giving
    characters back never helps: only the longest run counts. *)
Lemma m_star_skip (c : cclass) (s : pystr) (k : pystr -> option A) :
  (forall x t, cls_match icase c x = true -> k (x :: t) = None) ->
  m_star icase c s k = k (drop_while (cls_match icase c) s).
Proof.
  intros Hk. induction s as [|x s IH]; simpl; [done |].
  destruct (cls_match icase c x) eqn:E; [| done].
  rewrite IH, Hk by exact E. apply first_some_None_r.
Qed.

(** [c+] read as one [c] followed by [c*]. *)
Lemma m_plus_spec (c : cclass) (s : pystr) (k : pystr -> option A) :
  mtch icase (RPlus c) s k =
  match s with
  | x :: s' => if cls_match icase c x then m_star icase c s' k else None
  | [] => None
  end.
Proof. reflexivity. Qed.

Lemma m_rep_spec (n : nat) (c : cclass) (s : pystr) (k : pystr -> option A) :
  m_rep icase n c s k =
  if bool_decide (n <= length s) && forallb (cls_match icase c) (take n s)
  then k (drop n s) else None.
Proof.
  revert s; induction n as [|n IH]; intros [|x s]; simpl; try done.
  rewrite IH. destruct (cls_match icase c x); simpl.
  - repeat case_bool_decide; try lia; reflexivity.
  - by destruct (bool_decide _).
Qed.
End Closed.

(** ** [re.search]: the leftmost match *)

Lemma search_Some (icase : bool) (p : pattern) (s g : pystr) :
  search icase p s = Some g <->
  exists i, i <= length s /\ match_at icase p (drop i s) = Some g /\
            forall j, j < i -> match_at icase p (drop j s) = None.
Proof.
  induction s as [|x s IH]; simpl; unfold first_some.
  - destruct (match_at icase p []) as [g'|] eqn:E; split.
    + intros [= <-]. exists 0. split; [lia | split; [done | intros; lia]].
    + intros ([|i] & Hi & Hm & _); [simpl in Hm; congruence | lia].
    + discriminate.
    + intros ([|i] & Hi & Hm & _); [simpl in Hm; congruence | lia].
  - destruct (match_at icase p (x :: s)) as [g'|] eqn:E.
    + split.
      * intros [= <-]. exists 0. split; [lia | split; [done | intros; lia]].
      * intros ([|i] & Hi & Hm & Hj); [simpl in Hm; congruence |].
        specialize (Hj 0 ltac:(lia)). simpl in Hj. congruence.
    + rewrite IH. split.
      * intros (i & Hi & Hm & Hj). exists (S i). split; [lia | split; [done |]].
        intros [|j] ?; [done | apply Hj; lia].
      * intros ([|i] & Hi & Hm & Hj); [simpl in Hm; congruence |].
        exists i. split; [lia | split; [done |]].
        intros j ?. apply (Hj (S j)). lia.
Qed.

Lemma search_None (icase : bool) (p : pattern) (s : pystr) :
  search icase p s = None <-> forall i, i <= length s -> match_at icase p (drop i s) = None.
Proof.
  induction s as [|x s IH]; simpl; unfold first_some.
  - destruct (match_at icase p []) eqn:E; split; intros H.
    + discriminate.
    + specialize (H 0 ltac:(lia)). simpl in H. congruence.
    + intros [|i] Hi; [exact E | simpl in Hi; lia].
    + reflexivity.
  - destruct (match_at icase p (x :: s)) eqn:E; split; intros H.
    + discriminate.
    + specialize (H 0 ltac:(lia)). simpl in H. congruence.
    + rewrite IH in H. intros [|i] Hi; [exact E | apply H; simpl in Hi; lia].
    + apply IH. intros i Hi. apply (H (S i)). simpl; lia.
Qed.

#[export] Hint Rewrite @m_str_spec @m_rep_spec : py_rw.
