(* ===== verification/Rules.v ===== *)
(** * Rules: the abstract specification of a cumulative rule scorer

    Both scorers of the program, [score_risk] for reports and the
    keyword checks of [analyze_images] for photos, are a sequence of
    independent [if] statements, each adding a weight to a running score
    and a reason to a list.  The design notes of the spec describe them
    as an ordered table of (predicate, weight, reason) entries, evaluated
    without short-circuit.  This file states that table ([rule]), what
    it denotes ([rules_score], [rules_reasons]), and the class
    [RuleScorer] through which a client learns the bounds of a scorer;
    TextRiskScorer.v and ImageRiskScanner.v prove that the code refines
    its table. *)

From stdpp Require Import base list strings decidable.
From Stdlib Require Import ZArith Lia Ascii.
From S2P Require Import Prelude PyStr.

Open Scope py_scope.

Record rule (A : Type) := Rule {
  rule_pred : A -> bool;
  rule_weight : Z;
  rule_reason : pystr
}.
Arguments Rule {A} rule_pred rule_weight rule_reason.
Arguments rule_pred {A} r a.
Arguments rule_weight {A} r.
Arguments rule_reason {A} r.

(** The sum of [f] over a list, in [Z]. *)
Definition zsum {A} (f : A -> Z) (l : list A) : Z := fold_right (fun x acc => f x + acc)%Z 0%Z l.

(** The rules that fire on an input, in table order. *)
Definition triggered {A} (rs : list (rule A)) (a : A) : list (rule A) :=
  filter (fun r => rule_pred r a = true) rs.

Definition rules_score {A} (rs : list (rule A)) (a : A) : Z :=
  zsum rule_weight (triggered rs a).

Definition rules_reasons {A} (rs : list (rule A)) (a : A) : list pystr :=
  map rule_reason (triggered rs a).

(** The largest score the table can give. *)
Definition max_score {A} (rs : list (rule A)) : Z := zsum rule_weight rs.

(** What a scorer promises its clients: a table whose weights are not
    negative. *)
Class RuleScorer (A : Type) := {
  scorer_rules : list (rule A);
  scorer_weights_nonneg : Forall (fun r => 0 <= rule_weight r)%Z scorer_rules
}.

(** ** Laws of every rule table *)

Section Laws.
Context {A : Type}.
Local Open Scope Z_scope.

Lemma rules_score_cons (r : rule A) (rs : list (rule A)) (a : A) :
  rules_score (r :: rs) a =
  (if rule_pred r a then rule_weight r else 0) + rules_score rs a.
Proof.
  unfold rules_score, triggered. rewrite filter_cons.
  destruct (rule_pred r a); simpl; [reflexivity | lia].
Qed.

Lemma rules_reasons_cons (r : rule A) (rs : list (rule A)) (a : A) :
  rules_reasons (r :: rs) a =
  (if rule_pred r a then [rule_reason r] else []) ++ rules_reasons rs a.
Proof.
  unfold rules_reasons, triggered. rewrite filter_cons.
  by destruct (rule_pred r a).
Qed.

Lemma rules_score_bounds (rs : list (rule A)) (a : A) :
  Forall (fun r => 0 <= rule_weight r) rs ->
  0 <= rules_score rs a <= max_score rs.
Proof.
  induction 1 as [|r rs Hr _ IH]; [unfold rules_score, max_score; simpl; lia |].
  rewrite rules_score_cons. unfold max_score in *. simpl.
  destruct (rule_pred r a); lia.
Qed.

Lemma rules_reasons_length (rs : list (rule A)) (a : A) :
  (length (rules_reasons rs a) <= length rs)%nat.
Proof. unfold rules_reasons, triggered. rewrite length_map. apply length_filter. Qed.
End Laws.

#[export] Hint Rewrite @rules_score_cons @rules_reasons_cons : py_rw.

(** The bounds every client of a [RuleScorer] may rely on. *)
Lemma scorer_bounds `{RuleScorer A} (a : A) :
  (0 <= rules_score scorer_rules a <= max_score scorer_rules)%Z.
Proof. apply rules_score_bounds, scorer_weights_nonneg. Qed.
