(* ===== verification/TextExtractor.v ===== *)
(** * TextExtractor: [parse_report] (src/app.py, lines 49-62)

    [parse_report(text)] applies six [re.search] patterns, each with
    [re.IGNORECASE], and keeps [match.group(1).strip()] or ["N/A"].  The
    patterns are written in the syntax of Regex.v; the lemmas compute
    what each pattern captures in closed form ([label_field] and the
    [*_tail] functions), and the theorems derive the shape of every
    field of the record. *)

From stdpp Require Import base list strings decidable.
From Stdlib Require Import ZArith Lia Ascii.
From S2P Require Import Prelude PyStr Regex.

Open Scope py_scope.

(** ** The record *)

(** The dictionary returned by [parse_report]: its six keys, in order. *)
Record PropertyRecord := {
  property_id : pystr;
  location : pystr;
  year_built : pystr;
  condition : pystr;
  estimated_value : pystr;
  hazards : pystr
}.

(** ** The six patterns *)

(** [r"Property ID:\s*(\d+)"] *)
Definition p_property_id : pattern :=
  Pattern (RSeq (RStr (py "Property ID:")) (RStar CSpace)) (RPlus CDigit).

(** [r"Location:\s*(.+)"] *)
Definition p_location : pattern :=
  Pattern (RSeq (RStr (py "Location:")) (RStar CSpace)) (RPlus CAny).

(** [r"Year Built:\s*(\d{4})"] *)
Definition p_year_built : pattern :=
  Pattern (RSeq (RStr (py "Year Built:")) (RStar CSpace)) (RRep 4 CDigit).

(** [r"Condition:\s*(.+)"] *)
Definition p_condition : pattern :=
  Pattern (RSeq (RStr (py "Condition:")) (RStar CSpace)) (RPlus CAny).

(** [r"Estimated Value:\s*\$?([\d,]+)"] *)
Definition p_estimated_value : pattern :=
  Pattern (RSeq (RSeq (RStr (py "Estimated Value:")) (RStar CSpace)) (ROpt (CChar "$")))
          (RPlus (CUnion CDigit (CChar ","))).

(** [r"Hazards:\s*(.+)"] *)
Definition p_hazards : pattern :=
  Pattern (RSeq (RStr (py "Hazards:")) (RStar CSpace)) (RPlus CAny).

(** ** The extractor *)

(** The inner function [extract(pattern, default="N/A")]. *)
Definition extract (text : pystr) (p : pattern) (default : pystr) : pystr :=
  match search true p text with
  | Some g => strip g
  | None => default
  end.

Definition NA : pystr := py "N/A".

Definition parse_report (text : pystr) : PropertyRecord := {|
  property_id := extract text p_property_id NA;
  location := extract text p_location NA;
  year_built := extract text p_year_built NA;
  condition := extract text p_condition NA;
  estimated_value := extract text p_estimated_value NA;
  hazards := extract text p_hazards NA
|}.

(** ** Closed forms of what a pattern captures

    [group_run r s1] is the text of group 1 when the group [r] starts at
    [s1]; [label_field w tail s] matches the label [w] at the start of
    [s], case-insensitively, and hands the rest to [tail]. *)

Definition group_run (r : regex) (s1 : pystr) : option pystr :=
  mtch true r s1 (fun s2 => Some (take (length s1 - length s2) s1)).

Definition label_field (w : pystr) (tail : pystr -> option pystr) (s : pystr) : option pystr :=
  if prefix_ci true w s then tail (drop (length w) s) else None.

(** [k+] at the start of [u]: its maximal run, when there is one. *)
Definition run_at (k : ascii -> bool) (u : pystr) : option pystr :=
  match u with
  | x :: _ => if k x then Some (take_while k u) else None
  | [] => None
  end.

(** [\s*(k+)]: the maximal run right after the whitespace. *)
Definition run_tail (k : ascii -> bool) (t : pystr) : option pystr :=
  run_at k (drop_while is_space t).

(** [\s*(\d{4})]: exactly the four characters after the whitespace. *)
Definition year_tail (t : pystr) : option pystr :=
  let u := drop_while is_space t in
  if bool_decide (4 <= length u) && forallb is_digit (take 4 u) then Some (take 4 u)
  else None.

Definition is_value_char (x : ascii) : bool := is_digit x || bool_decide (x = ","%char).

(** [\s*\$?([\d,]+)]: one dollar sign may follow the whitespace. *)
Definition value_tail (t : pystr) : option pystr :=
  match drop_while is_space t with
  | x :: v =>
      if bool_decide (x = "$"%char) then run_at is_value_char v
      else run_at is_value_char (x :: v)
  | [] => None
  end.

(** [\s*(.+)]: the rest of the line after the whitespace; the
    whitespace may span line feeds.  When only whitespace is left, the
    engine backtracks into it and [.+] takes its last character that is
    not a line feed. *)
Definition line_tail (t : pystr) : option pystr :=
  match drop_while is_space t with
  | (_ :: _) as u => Some (take_while (fun x => negb (bool_decide (x = NL))) u)
  | [] => option_map (fun c => [c]) (last_non_nl t)
  end.

(** ** Character facts used by the closed forms *)

Lemma space_not_digit (x : ascii) : is_space x = true -> is_digit x = false.
Proof. ascii_cases_by x ltac:(intros H; (reflexivity || discriminate H)). Qed.

Lemma space_not_value (x : ascii) : is_space x = true -> is_value_char x = false.
Proof. ascii_cases_by x ltac:(intros H; (reflexivity || discriminate H)). Qed.

Lemma space_not_dollar (x : ascii) : is_space x = true -> char_eq true "$" x = false.
Proof. ascii_cases_by x ltac:(intros H; (reflexivity || discriminate H)). Qed.

Lemma cls_value (x : ascii) :
  cls_match true (CUnion CDigit (CChar ",")) x = is_value_char x.
Proof. ascii_cases x. Qed.

Lemma char_eq_dollar (x : ascii) : char_eq true "$" x = bool_decide (x = "$"%char).
Proof. ascii_cases x. Qed.

Lemma not_space_not_nl (x : ascii) : is_space x = false -> bool_decide (x = NL) = false.
Proof. ascii_cases_by x ltac:(intros H; (reflexivity || discriminate H)). Qed.

Lemma last_non_nl_None (t : pystr) : last_non_nl t = None -> Forall (fun x => x = NL) t.
Proof.
  induction t as [|x t IH]; simpl; [constructor |].
  destruct (last_non_nl t); [discriminate | simpl].
  case_bool_decide; [intros _; constructor; auto | discriminate].
Qed.

(** ** Closed forms of the groups *)

Lemma run_at_ext (p q : ascii -> bool) (u : pystr) :
  (forall x, p x = q x) -> run_at p u = run_at q u.
Proof.
  intros H. destruct u as [|x u]; [done |]. simpl. rewrite H.
  by rewrite (take_while_ext p q).
Qed.

Lemma group_run_plus (k : cclass) (s1 : pystr) :
  group_run (RPlus k) s1 = run_at (cls_match true k) s1.
Proof.
  destruct s1 as [|x t]; [reflexivity |]. unfold group_run. simpl.
  destruct (cls_match true k x) eqn:E; [| reflexivity].
  apply m_star_longest. f_equal.
  pose proof (take_length_take_while (cls_match true k) (x :: t)) as H.
  simpl in H. rewrite E in H. exact H.
Qed.

Lemma group_run_rep (n : nat) (k : cclass) (s1 : pystr) :
  group_run (RRep n k) s1 =
  if bool_decide (n <= length s1) && forallb (cls_match true k) (take n s1)
  then Some (take n s1) else None.
Proof.
  unfold group_run. simpl. rewrite m_rep_spec.
  destruct (bool_decide (n <= length s1)) eqn:E; [| reflexivity].
  apply bool_decide_eq_true in E. rewrite length_drop.
  by replace (length s1 - (length s1 - n)) with n by lia.
Qed.

(** ** Closed forms of the prefixes *)

Lemma mtch_label (A : Type) (w : pystr) (r : regex) (s : pystr) (K : pystr -> option A) :
  mtch true (RSeq (RStr w) r) s K =
  if prefix_ci true w s then mtch true r (drop (length w) s) K else None.
Proof. simpl. apply m_str_spec. Qed.

(** After [\s*], a group that cannot start with whitespace sees the
    text after the longest run of whitespace. *)
Lemma space_then_run (k : cclass) (t : pystr) :
  (forall x, is_space x = true -> cls_match true k x = false) ->
  m_star true CSpace t (group_run (RPlus k)) = run_tail (cls_match true k) t.
Proof.
  intros Hk. rewrite m_star_skip; [by rewrite group_run_plus |].
  intros x u Hx. rewrite group_run_plus. simpl. by rewrite Hk.
Qed.

Lemma space_then_year (t : pystr) :
  m_star true CSpace t (group_run (RRep 4 CDigit)) = year_tail t.
Proof.
  rewrite m_star_skip; [by rewrite group_run_rep |].
  intros x u Hx. rewrite group_run_rep. simpl. rewrite (space_not_digit x Hx).
  by destruct (bool_decide _).
Qed.

Lemma space_then_value (t : pystr) :
  m_star true CSpace t
    (fun s' => mtch true (ROpt (CChar "$")) s' (group_run (RPlus (CUnion CDigit (CChar ",")))))
  = value_tail t.
Proof.
  assert (Hrun : forall u, group_run (RPlus (CUnion CDigit (CChar ","))) u = run_at is_value_char u).
  { intros u. rewrite group_run_plus. apply run_at_ext, cls_value. }
  rewrite m_star_skip.
  - unfold value_tail. change (cls_match true CSpace) with is_space.
    destruct (drop_while is_space t) as [|x v]; cbn [mtch cls_match]; [by rewrite Hrun |].
    rewrite char_eq_dollar. case_bool_decide; subst.
    + rewrite !Hrun. simpl. by rewrite first_some_None_r.
    + by rewrite Hrun.
  - intros x u Hx. cbn [mtch cls_match]. rewrite (space_not_dollar x Hx), Hrun. simpl.
    by rewrite (space_not_value x Hx).
Qed.

(** [\s*(.+)]: the whitespace run is given back one character at a time
    until [.+] can start, i.e. until a character that is not a line feed
    is found. *)
Lemma space_then_line (t : pystr) :
  m_star true CSpace t (group_run (RPlus CAny)) = line_tail t.
Proof.
  induction t as [|x t IH]; [reflexivity |].
  cbn [m_star cls_match]. rewrite group_run_plus. unfold line_tail. simpl drop_while.
  destruct (is_space x) eqn:Hx.
  - rewrite IH. unfold line_tail.
    destruct (drop_while is_space t) as [|a l]; [| reflexivity].
    simpl last_non_nl. destruct (last_non_nl t) eqn:Hl; [reflexivity |].
    simpl. case_bool_decide; simpl; [reflexivity |].
    apply last_non_nl_None in Hl. inversion Hl as [|y t' Hy]; subst; [reflexivity |].
    cbn [take_while]. rewrite bool_decide_true by reflexivity. reflexivity.
  - simpl. by rewrite (not_space_not_nl x Hx).
Qed.

(** ** Each pattern in closed form *)

Lemma match_at_property_id (s : pystr) :
  match_at true p_property_id s = label_field (py "Property ID:") (run_tail is_digit) s.
Proof.
  unfold match_at, label_field. cbn [p_property_id pat_prefix pat_group].
  rewrite mtch_label. destruct (prefix_ci _ _ _); [| done].
  exact (space_then_run CDigit _ space_not_digit).
Qed.

Lemma match_at_year_built (s : pystr) :
  match_at true p_year_built s = label_field (py "Year Built:") year_tail s.
Proof.
  unfold match_at, label_field. cbn [p_year_built pat_prefix pat_group].
  rewrite mtch_label. destruct (prefix_ci _ _ _); [| done].
  exact (space_then_year _).
Qed.

Lemma match_at_estimated_value (s : pystr) :
  match_at true p_estimated_value s = label_field (py "Estimated Value:") value_tail s.
Proof.
  unfold match_at, label_field. cbn [p_estimated_value pat_prefix pat_group].
  cbn [mtch]. rewrite m_str_spec. destruct (prefix_ci _ _ _); [| done].
  exact (space_then_value _).
Qed.

(** The three free-text fields share the shape [Label:\s*(.+)]. *)
Definition line_pattern (w : pystr) : pattern :=
  Pattern (RSeq (RStr w) (RStar CSpace)) (RPlus CAny).

Lemma match_at_line (w s : pystr) :
  match_at true (line_pattern w) s = label_field w line_tail s.
Proof.
  unfold match_at, label_field. cbn [line_pattern pat_prefix pat_group].
  rewrite mtch_label. destruct (prefix_ci _ _ _); [| done].
  exact (space_then_line _).
Qed.

Lemma p_location_line : p_location = line_pattern (py "Location:").
Proof. reflexivity. Qed.

Lemma p_condition_line : p_condition = line_pattern (py "Condition:").
Proof. reflexivity. Qed.

Lemma p_hazards_line : p_hazards = line_pattern (py "Hazards:").
Proof. reflexivity. Qed.

(** ** What [extract] returns *)

Lemma run_at_Some (k : ascii -> bool) (u g : pystr) :
  run_at k u = Some g -> g <> [] /\ Forall (fun c => k c = true) g.
Proof.
  destruct u as [|x u]; simpl; [discriminate |].
  destruct (k x) eqn:Hx; [intros [= <-] | discriminate].
  cbn. split; [discriminate | constructor; [exact Hx | apply take_while_Forall]].
Qed.

(** A property of every value [extract] can return: the default, or a
    stripped group that some position of the text matches. *)
Lemma extract_cases (Q : pystr -> Prop) (text : pystr) (p : pattern) (d : pystr) :
  (forall s g, match_at true p s = Some g -> Q (strip g)) -> Q d -> Q (extract text p d).
Proof.
  intros Hm Hd. unfold extract. destruct (search true p text) as [g|] eqn:E; [| exact Hd].
  apply search_Some in E as (i & _ & Hi & _). exact (Hm _ _ Hi).
Qed.

(** Reduce a field of [parse_report] to its [extract] call and split
    on what [extract] returns. *)
Ltac field_cases :=
  cbn [parse_report property_id location year_built condition estimated_value hazards];
  match goal with
  | |- context [extract ?t ?p ?d] => pattern (extract t p d); apply extract_cases
  end.

Lemma label_field_Some (w : pystr) (tail : pystr -> option pystr) (s g : pystr) :
  label_field w tail s = Some g -> exists t, tail t = Some g.
Proof. unfold label_field. destruct (prefix_ci true w s); [eauto | discriminate]. Qed.

Lemma prefix_ci_app (w s : pystr) : prefix_ci true w (w ++ s) = true.
Proof.
  induction w as [|c w IH]; [reflexivity |]. simpl. rewrite IH.
  unfold char_eq. by rewrite bool_decide_true.
Qed.

Lemma label_field_app (w : pystr) (tail : pystr -> option pystr) (s : pystr) :
  label_field w tail (w ++ s) = tail s.
Proof. unfold label_field. by rewrite prefix_ci_app, drop_app_length. Qed.

Lemma value_char_not_space (x : ascii) : is_value_char x = true -> is_space x = false.
Proof. ascii_cases_by x ltac:(intros H; (reflexivity || discriminate H)). Qed.

Lemma line_tail_no_nl (t g : pystr) :
  line_tail t = Some g -> Forall (fun c => c <> NL) g.
Proof.
  unfold line_tail. destruct (drop_while is_space t) as [|a l].
  - destruct (last_non_nl t) as [c|] eqn:E; simpl; [intros [= <-] | discriminate].
    constructor; [| constructor]. clear -E. induction t as [|x t IH]; simpl in E; [done |].
    destruct (last_non_nl t); simpl in E; [injection E as <-; by apply IH |].
    case_bool_decide; [discriminate | by injection E as <-].
  - intros [= <-].
    pose proof (take_while_Forall (fun x => negb (bool_decide (x = NL))) (a :: l)) as H.
    eapply Forall_impl; [| exact H].
    intros c Hc. simpl in Hc. by apply negb_true_iff, bool_decide_eq_false in Hc.
Qed.

(** C11: The Property ID field is ["N/A"] or a non-empty string of
    decimal digits: the key used for matching images is never empty and
    holds no character that [str.contains] would read as a regex
    operator. *)
Theorem property_id_shape (text : pystr) :
  property_id (parse_report text) = NA \/
  (property_id (parse_report text) <> [] /\
   Forall (fun c => is_digit c = true) (property_id (parse_report text))).
Proof.
  field_cases; [| by left]. intros s g Hm.
  rewrite match_at_property_id in Hm. apply label_field_Some in Hm as [t Hm].
  apply run_at_Some in Hm as [Hne Hd]. right.
  rewrite strip_no_space by (eapply Forall_impl; [apply digit_not_space | exact Hd]).
  auto.
Qed.

(** What the Year Built pattern can capture, after [strip]. *)
Lemma year_built_digits (text : pystr) :
  year_built (parse_report text) = NA \/
  (length (year_built (parse_report text)) = 4 /\
   Forall (fun c => is_digit c = true) (year_built (parse_report text))).
Proof.
  field_cases; [| by left]. intros s g Hm.
  rewrite match_at_year_built in Hm. apply label_field_Some in Hm as [t Hm].
  unfold year_tail in Hm.
  destruct (bool_decide _ && forallb _ _) eqn:E; [injection Hm as <- | discriminate].
  apply andb_true_iff in E as [Hlen%bool_decide_eq_true Hall].
  assert (Hd : Forall (fun c => is_digit c = true) (take 4 (drop_while is_space t)))
    by (apply List.Forall_forall, forallb_forall, Hall).
  right. rewrite strip_no_space by (eapply Forall_impl; [apply digit_not_space | exact Hd]).
  split; [rewrite length_take; lia | exact Hd].
Qed.

(** C12: The Year Built field is ["N/A"] or exactly four decimal digits. *)
Theorem year_built_shape (text : pystr) :
  year_built (parse_report text) = NA \/
  (length (year_built (parse_report text)) = 4 /\
   Forall (fun c => is_digit c = true) (year_built (parse_report text))).
Proof. exact (year_built_digits text). Qed.

(** C22: The Estimated Value field is ["N/A"] or a non-empty string of
    digits and commas, with the dollar sign removed. *)
Theorem estimated_value_shape (text : pystr) :
  estimated_value (parse_report text) = NA \/
  (estimated_value (parse_report text) <> [] /\
   Forall (fun c => is_value_char c = true) (estimated_value (parse_report text))).
Proof.
  field_cases; [| by left]. intros s g Hm.
  rewrite match_at_estimated_value in Hm. apply label_field_Some in Hm as [t Hm].
  unfold value_tail in Hm. destruct (drop_while is_space t) as [|x v]; [discriminate |].
  assert (Hrun : run_at is_value_char (if bool_decide (x = "$"%char) then v else x :: v) = Some g)
    by (by case_bool_decide).
  apply run_at_Some in Hrun as [Hne Hd]. right.
  rewrite strip_no_space by (eapply Forall_impl; [apply value_char_not_space | exact Hd]).
  auto.
Qed.

Lemma NA_no_nl : Forall (fun c => c <> NL) NA.
Proof. repeat constructor; unfold NL; discriminate. Qed.

Lemma line_field_no_nl (w text : pystr) :
  Forall (fun c => c <> NL) (extract text (line_pattern w) NA).
Proof.
  apply extract_cases; [| exact NA_no_nl]. intros s g Hm.
  rewrite match_at_line in Hm. apply label_field_Some in Hm as [t Hm].
  by apply strip_Forall, (line_tail_no_nl t).
Qed.

Lemma search_here (icase : bool) (p : pattern) (s g : pystr) :
  match_at icase p s = Some g -> search icase p s = Some g.
Proof. intros H. destruct s; simpl; by rewrite H. Qed.

(** C19: Location, Condition and Hazards never contain a line feed: each
    holds at most one line of the report. *)
Theorem text_fields_single_line (text : pystr) :
  Forall (fun c => c <> NL) (location (parse_report text)) /\
  Forall (fun c => c <> NL) (condition (parse_report text)) /\
  Forall (fun c => c <> NL) (hazards (parse_report text)).
Proof.
  cbn [parse_report location condition hazards].
  rewrite p_location_line, p_condition_line, p_hazards_line.
  split; [| split]; apply line_field_no_nl.
Qed.

(** C20: [parse_report] uses the first position of the text where a
    pattern matches; later occurrences of the label are ignored. *)
Theorem extract_first (text : pystr) (p : pattern) (d : pystr) (i : nat) (g : pystr) :
  i <= length text ->
  match_at true p (drop i text) = Some g ->
  (forall j, j < i -> match_at true p (drop j text) = None) ->
  extract text p d = strip g.
Proof.
  intros Hi Hm Hj. unfold extract.
  replace (search true p text) with (Some g); [reflexivity |].
  symmetry. apply search_Some. eauto.
Qed.

(** C21: A field whose pattern matches nowhere in the report takes the
    default ["N/A"]; [parse_report] never fails. *)
Theorem extract_default (text : pystr) (p : pattern) (d : pystr) :
  (forall i, i <= length text -> match_at true p (drop i text) = None) ->
  extract text p d = d.
Proof. intros H. unfold extract. by rewrite (proj2 (search_None true p text) H). Qed.

(** C18: When the label line of Condition holds only whitespace, [\s*]
    crosses the line feed and the value is taken from the next line of
    the report (the spec says the value is the rest of the label's line). *)
Theorem condition_from_next_line (ws : pystr) (x : ascii) (r : pystr) :
  Forall (fun c => is_space c = true) ws -> is_space x = false ->
  condition (parse_report (py "Condition:" ++ ws ++ x :: r)) =
  strip (take_while (fun c => negb (bool_decide (c = NL))) (x :: r)).
Proof.
  intros Hws Hx. cbn [parse_report condition]. unfold extract.
  rewrite (search_here _ _ _ (take_while (fun c => negb (bool_decide (c = NL))) (x :: r)));
    [reflexivity |].
  rewrite p_condition_line, match_at_line, label_field_app. unfold line_tail.
  rewrite drop_while_app_all by exact Hws. simpl. by rewrite Hx.
Qed.

Lemma last_non_nl_Some (t : pystr) (c : ascii) :
  last_non_nl t = Some c -> c ∈ t /\ c <> NL.
Proof.
  induction t as [|x t IH]; simpl; [discriminate |].
  destruct (last_non_nl t) as [c'|]; simpl.
  - intros [= ->]. destruct (IH eq_refl). split; [by right | done].
  - case_bool_decide; [discriminate |]. intros [= ->]. split; [left | done].
Qed.

Lemma last_non_nl_found (t : pystr) (c : ascii) :
  c ∈ t -> c <> NL -> exists c', last_non_nl t = Some c'.
Proof.
  intros Hin Hc. destruct (last_non_nl t) as [c'|] eqn:E; [eauto |].
  apply last_non_nl_None in E. rewrite list.Forall_forall in E. by destruct (Hc (E c Hin)).
Qed.

(** A line pattern whose label is followed only by whitespace, up to
    the end of the text, matches one whitespace character, and [strip]
    leaves the empty string. *)
Lemma line_blank (w ws d : pystr) (c : ascii) :
  Forall (fun x => is_space x = true) ws -> c ∈ ws -> c <> NL ->
  extract (w ++ ws) (line_pattern w) d = [].
Proof.
  intros Hws Hin Hc. destruct (last_non_nl_found ws c Hin Hc) as [c' Hc'].
  destruct (last_non_nl_Some ws c' Hc') as [Hin' _].
  unfold extract. rewrite (search_here _ _ _ [c']).
  - apply strip_all_space. constructor; [| constructor].
    rewrite list.Forall_forall in Hws. exact (Hws c' Hin').
  - rewrite match_at_line, label_field_app. unfold line_tail.
    by rewrite drop_while_all, Hc' by exact Hws.
Qed.

(** C31: A Location, Condition or Hazards label followed only by
    whitespace up to the end of the report, not all of it line feeds,
    gives the empty string and not the default ["N/A"]: [\s*] gives
    back one whitespace character to [.+], which [strip] removes. *)
Theorem blank_value_empty (ws : pystr) (c : ascii) :
  Forall (fun x => is_space x = true) ws -> c ∈ ws -> c <> NL ->
  location (parse_report (py "Location:" ++ ws)) = [] /\
  condition (parse_report (py "Condition:" ++ ws)) = [] /\
  hazards (parse_report (py "Hazards:" ++ ws)) = [].
Proof.
  intros Hws Hin Hc. cbn [parse_report location condition hazards].
  rewrite p_location_line, p_condition_line, p_hazards_line.
  split; [| split]; exact (line_blank _ ws NA c Hws Hin Hc).
Qed.

(** ** Witnesses *)

(** A report that states the year twice: the first occurrence wins. *)
Definition two_years : pystr := py "Year Built: 1990" ++ [NL] ++ py "Year Built: 2010".

Lemma extract_first_witness : extract two_years p_year_built NA = py "1990".
Proof.
  rewrite (extract_first two_years p_year_built NA 0 (py "1990"));
    [vm_compute; reflexivity | simpl; lia | vm_compute; reflexivity | intros; lia].
Defined.

Lemma extract_default_witness : extract (py "Location: x") p_year_built NA = NA.
Proof.
  apply extract_default. intros i Hi.
  do 12 (destruct i as [|i]; [vm_compute; reflexivity |]). simpl in Hi; lia.
Defined.

Lemma condition_from_next_line_witness :
  condition (parse_report (py "Condition:" ++ [NL] ++ "H"%char :: py "azards: Flood zone")) =
  py "Hazards: Flood zone".
Proof.
  rewrite (condition_from_next_line [NL] "H" (py "azards: Flood zone")).
  - vm_compute; reflexivity.
  - repeat constructor.
  - vm_compute; reflexivity.
Defined.

Lemma blank_value_empty_witness :
  location (parse_report (py "Location:   ")) = [] /\
  condition (parse_report (py "Condition:   ")) = [] /\
  hazards (parse_report (py "Hazards:   ")) = [].
Proof. apply (blank_value_empty (py "   ") " "); [repeat constructor | left | discriminate]. Defined.
