(* ===== verification/ReportLayout.v ===== *)
(** * ReportLayout: [parse_report] on a whole report of the spec's layout

    The spec's reports hold the six labels on lines of their own, in the
    order "Property ID", "Location", "Year Built", "Condition",
    "Estimated Value" and "Hazards", as in its sample.  This file proves
    what [parse_report] (src/app.py, lines 50-62) returns on such a
    report: the six values, the three free-text ones stripped.

    [re.search] tries the positions of the text from the left.  A line
    that does not contain the label (compared case-insensitively) is
    skipped ([search_skip_line]): the label holds no line feed, so no
    occurrence can start on the line and end on the next one.  Since
    every label ends with a colon, a value without a colon never
    completes an occurrence ([search_skip]).  On the label's own line
    the closed forms of TextExtractor.v give the captured value. *)

From stdpp Require Import base list strings decidable.
From Stdlib Require Import ZArith Lia Ascii.
From S2P Require Import Prelude PyStr Regex TextExtractor.

Open Scope py_scope.

Definition COLON : ascii := ":"%char.

(** A report of the spec's layout: one space after each label, a
    dollar sign before the estimated value. *)
Definition report_text (id loc year cond val haz : pystr) : pystr :=
  py "Property ID: " ++ id ++ NL :: py "Location: " ++ loc ++ NL ::
  py "Year Built: " ++ year ++ NL :: py "Condition: " ++ cond ++ NL ::
  py "Estimated Value: $" ++ val ++ NL :: py "Hazards: " ++ haz.

(** A label the scan can step over: it ends with a colon and holds no
    line feed. *)
Definition label_ok (w : pystr) : bool :=
  ends_with [COLON] w && forallb (fun c => negb (bool_decide (c = NL))) w.

(** What may follow a value on its line: the end of the text or a line
    feed. *)
Definition line_end (t : pystr) : bool :=
  match t with [] => true | c :: _ => bool_decide (c = NL) end.

(** A free-text value on its line: it starts with a character that is
    not whitespace and holds no line feed. *)
Definition text_value (v : pystr) : Prop :=
  (exists c r, v = c :: r /\ is_space c = false) /\ Forall (fun x => x <> NL) v.

(** ** Case folding and line feeds *)

Lemma lower_char_cases (x : ascii) :
  lower_char x = x \/ 97 <= nat_of_ascii (lower_char x) <= 122.
Proof.
  unfold lower_char. destruct (_ && _) eqn:E; [right | by left].
  apply andb_true_iff in E as [E1 E2]. apply Nat.leb_le in E1, E2.
  pose proof (nat_ascii_bounded x). rewrite nat_ascii_embedding; lia.
Qed.

(** A character that is not a lower-case letter is its own only
    pre-image under [lower_char]. *)
Lemma lower_char_fixed (x c : ascii) :
  ~ (97 <= nat_of_ascii c <= 122) -> lower_char x = c -> x = c.
Proof.
  intros Hc Hx. destruct (lower_char_cases x) as [Hid | Hr]; [congruence |].
  rewrite Hx in Hr. lia.
Qed.

Lemma lower_Forall_ne (c : ascii) (v : pystr) :
  ~ (97 <= nat_of_ascii c <= 122) -> Forall (fun x => x <> c) v -> Forall (fun x => x <> c) (lower v).
Proof.
  intros Hc Hv. unfold lower. apply Forall_fmap. eapply Forall_impl; [| exact Hv].
  intros x Hx Heq. by apply Hx, (lower_char_fixed x c Hc).
Qed.

Lemma prefix_ci_lower (w s : pystr) : prefix_ci true w s = starts_with (lower w) (lower s).
Proof.
  revert s. induction w as [|c w IH]; intros [|x s]; [done | done | done |].
  cbn [prefix_ci starts_with lower map]. by rewrite <- IH.
Qed.

(** A prefix with no line feed, of a string with a line feed, is a
    prefix of the part before the line feed. *)
Lemma starts_with_before_nl (w l r : pystr) :
  Forall (fun c => c <> NL) w -> starts_with w (l ++ NL :: r) = true -> starts_with w l = true.
Proof.
  intros Hw. revert l. induction Hw as [|c w Hc _ IH]; intros l; [done |].
  destruct l as [|x l]; cbn [app starts_with].
  - rewrite bool_decide_eq_false_2 by exact Hc. discriminate.
  - rewrite !andb_true_iff. intros [Hx H]. split; [exact Hx | exact (IH l H)].
Qed.

Lemma contains_of_starts (n h : pystr) : starts_with n h = true -> contains n h = true.
Proof. intros H. destruct h; simpl; by rewrite H. Qed.

(** An occurrence of a word that ends with [c], in [a ++ v] where [v]
    has no [c], lies in [a]. *)
Lemma infix_last_app (w a v : pystr) (c : ascii) :
  infix (w ++ [c]) (a ++ v) -> Forall (fun x => x <> c) v -> infix (w ++ [c]) a.
Proof.
  intros (u & b & Hab) Hv.
  assert (Hab' : (u ++ w ++ [c]) ++ b = a ++ v) by (rewrite Hab; by rewrite <- !app_assoc).
  apply app_eq_app in Hab' as (k & [[Hu Hvk] | [Ha Hb]]).
  - destruct k as [|y k] using rev_ind.
    + exists u, []. rewrite app_nil_r in Hu. by rewrite <- Hu, app_nil_r.
    + rewrite !app_assoc in Hu. apply app_inj_tail in Hu as [_ Hyc]. subst y.
      rewrite list.Forall_forall in Hv. destruct (Hv c); [| done].
      rewrite Hvk. apply elem_of_app. left. apply elem_of_app. right. by left.
  - exists u, k. rewrite Ha. by rewrite <- !app_assoc.
Qed.

(** ** Stepping over the lines before the label *)

Lemma search_cons (icase : bool) (p : pattern) (x : ascii) (s : pystr) :
  search icase p (x :: s) = first_some (match_at icase p (x :: s)) (search icase p s).
Proof. reflexivity. Qed.

Section Skip.
(** A pattern that starts with the label [w], followed by [tail]. *)
Variable p : pattern.
Variable w : pystr.
Variable tail : pystr -> option pystr.
Hypothesis Hp : forall s, match_at true p s = label_field w tail s.
Hypothesis Hw_nl : Forall (fun c => c <> NL) w.

Lemma lower_label_no_nl : Forall (fun c => c <> NL) (lower w).
Proof. apply lower_Forall_ne; [cbv; lia | exact Hw_nl]. Qed.

(** The pattern does not match at a position of a line that does not
    contain the label. *)
Lemma match_at_line_without (line rest : pystr) :
  contains (lower w) (lower line) = false -> match_at true p (line ++ NL :: rest) = None.
Proof.
  intros Hc. rewrite Hp. unfold label_field. rewrite prefix_ci_lower, lower_app.
  destruct (starts_with (lower w) (lower line ++ lower (NL :: rest))) eqn:E; [| done].
  apply starts_with_before_nl in E; [| exact lower_label_no_nl].
  apply contains_of_starts in E. congruence.
Qed.

Lemma search_skip_line (line rest : pystr) :
  contains (lower w) (lower line) = false ->
  search true p (line ++ NL :: rest) = search true p rest.
Proof.
  induction line as [|x line IH]; intros Hc;
    pose proof (match_at_line_without _ rest Hc) as H0; cbn [app] in H0 |- *;
    rewrite search_cons, H0; cbn [first_some]; [reflexivity |]. apply IH. cbn [lower map contains] in Hc.
    apply orb_false_iff in Hc as [_ Hc]. exact Hc.
Qed.
End Skip.

(** A label, which ends with a colon, is not in [lbl ++ v] when it is
    not in [lbl] and [v] holds no colon. *)
Lemma contains_label_colon_free (w' lbl v : pystr) :
  contains (lower (w' ++ [COLON])) (lower lbl) = false -> Forall (fun c => c <> COLON) v ->
  contains (lower (w' ++ [COLON])) (lower (lbl ++ v)) = false.
Proof.
  intros Hlbl Hv. destruct (contains _ (lower (lbl ++ v))) eqn:E; [exfalso | done].
  apply contains_spec in E. rewrite !lower_app in E. cbn [lower map] in E.
  apply infix_last_app in E; [| change (lower_char COLON) with COLON; apply lower_Forall_ne; [cbv; lia | exact Hv]].
  change (lower_char COLON) with COLON in Hlbl. rewrite lower_app in Hlbl. cbn [lower map] in Hlbl.
  apply contains_spec in E. congruence.
Qed.

(** A line [lbl ++ v] is stepped over when the label is not in [lbl]
    and [v] holds no colon. *)
Lemma search_skip (p : pattern) (w : pystr) (tail : pystr -> option pystr) (lbl v rest : pystr) :
  (forall s, match_at true p s = label_field w tail s) -> label_ok w = true ->
  contains (lower w) (lower lbl) = false -> Forall (fun c => c <> COLON) v ->
  search true p (lbl ++ v ++ NL :: rest) = search true p rest.
Proof.
  intros Hp Hok Hlbl Hv. apply andb_true_iff in Hok as [Hend Hnl].
  apply ends_with_spec in Hend as [w' ->].
  assert (Hw : Forall (fun c => c <> NL) (w' ++ [COLON])).
  { rewrite forallb_forall in Hnl. apply List.Forall_forall. intros c Hc.
    specialize (Hnl c Hc). by destruct (decide (c = NL)); [subst; rewrite bool_decide_eq_true_2 in Hnl |]. }
  rewrite app_assoc. apply (search_skip_line p _ tail Hp Hw).
  by apply contains_label_colon_free.
Qed.

(** ** Stepping over the text before a label inside a line *)

Lemma starts_with_self (w k : pystr) : starts_with w (w ++ k) = true.
Proof. apply starts_with_spec. by exists k. Qed.

(** A word that ends with the only occurrence of [c] in it cannot
    start in a string that does not contain it and end in a string that
    starts with it: its proper suffixes ending with [c] would be
    prefixes of the word without [c]. *)
Lemma no_straddle (w' u y : pystr) (c : ascii) :
  ~ c ∈ w' -> u <> [] -> contains (w' ++ [c]) u = false -> starts_with (w' ++ [c]) y = true ->
  starts_with (w' ++ [c]) (u ++ y) = false.
Proof.
  intros Hc Hu Hcont Hy. destruct (starts_with (w' ++ [c]) (u ++ y)) eqn:E; [exfalso | done].
  apply starts_with_spec in E as [r Hr]. apply starts_with_spec in Hy as [r3 Hr3].
  apply app_eq_app in Hr as (k & [[Huk Hr] | [Hw Hyk]]).
  - rewrite Huk, (contains_of_starts _ _ (starts_with_self _ k)) in Hcont. discriminate.
  - destruct k as [|z k'] using rev_ind.
    + rewrite app_nil_r in Hw. rewrite <- Hw in Hcont.
      rewrite <- (app_nil_r (w' ++ [c])) in Hcont at 2.
      rewrite (contains_of_starts _ _ (starts_with_self _ [])) in Hcont. discriminate.
    + rewrite app_assoc in Hw. apply app_inj_tail in Hw as [Hw Hzc]. subst z.
      assert (Hlen : length k' < length w').
      { rewrite Hw, length_app. destruct u; [done | simpl; lia]. }
      rewrite Hr3, <- app_assoc in Hyk.
      assert (Ht : take (S (length k')) ((w' ++ [c]) ++ r3) = k' ++ [c]).
      { rewrite <- app_assoc, Hyk. apply take_app_length'. rewrite length_app. simpl. lia. }
      rewrite take_app_le in Ht by (rewrite length_app; simpl; lia).
      rewrite take_app_le in Ht by lia.
      apply Hc. rewrite <- (take_drop (S (length k')) w'), Ht.
      apply elem_of_app. left. apply elem_of_app. right. by left.
Qed.

(** Before a label that starts [b], a stretch [a] that does not contain
    the label is stepped over, even inside a line. *)
Lemma search_skip_prefix (p : pattern) (w' : pystr) (tail : pystr -> option pystr) (a b : pystr) :
  (forall s, match_at true p s = label_field (w' ++ [COLON]) tail s) ->
  Forall (fun x => x <> COLON) w' ->
  contains (lower (w' ++ [COLON])) (lower a) = false ->
  starts_with (lower (w' ++ [COLON])) (lower b) = true ->
  search true p (a ++ b) = search true p b.
Proof.
  intros Hp Hw Ha Hb. rewrite lower_app in Ha, Hb. cbn [lower map] in Ha, Hb.
  change (lower_char COLON) with COLON in Ha, Hb.
  assert (Hc : ~ COLON ∈ lower w').
  { intros Hin. apply lower_Forall_ne in Hw; [| cbv; lia].
    rewrite list.Forall_forall in Hw. by apply (Hw COLON). }
  induction a as [|x a IH]; [done |]. cbn [app]. rewrite search_cons, Hp.
  unfold label_field. rewrite prefix_ci_lower, !lower_app. cbn [lower map].
  change (lower_char COLON) with COLON.
  change (lower_char x :: lower (a ++ b)) with (lower (x :: a ++ b)).
  rewrite lower_app. cbn [app].
  change (lower_char x :: lower a ++ lower b) with ((lower_char x :: lower a) ++ lower b).
  rewrite no_straddle by (done || exact Hb || exact Ha). cbn [first_some].
  apply IH. cbn [lower map contains] in Ha. apply orb_false_iff in Ha as [_ Ha]. exact Ha.
Qed.

(** ** The label's own line *)

Lemma search_label_line (p : pattern) (w : pystr) (tail : pystr -> option pystr) (s g : pystr) :
  (forall s, match_at true p s = label_field w tail s) -> tail s = Some g ->
  search true p (w ++ s) = Some g.
Proof. intros Hp Ht. apply search_here. by rewrite Hp, label_field_app. Qed.

Lemma take_while_line_end (k : ascii -> bool) (t : pystr) :
  k NL = false -> line_end t = true -> take_while k t = [].
Proof.
  intros Hk. destruct t as [|c t]; [done |]. cbn [line_end take_while].
  intros Hc. apply bool_decide_eq_true in Hc. subst c. by rewrite Hk.
Qed.

(** After the single space, the value starts with its first character. *)
Lemma drop_space_value (v t : pystr) (c : ascii) (r : pystr) :
  v = c :: r -> is_space c = false -> drop_while is_space (" "%char :: v ++ t) = v ++ t.
Proof. intros -> Hc. cbn. by rewrite Hc. Qed.

Lemma line_tail_value (v t : pystr) (c : ascii) (r : pystr) :
  v = c :: r -> is_space c = false -> Forall (fun x => x <> NL) v -> line_end t = true ->
  line_tail (" "%char :: v ++ t) = Some v.
Proof.
  intros -> Hc Hnl Ht. unfold line_tail. rewrite (drop_space_value (c :: r) t c r eq_refl Hc).
  change ((c :: r) ++ t) with (c :: (r ++ t)). cbn iota. f_equal.
  change (c :: r ++ t) with ((c :: r) ++ t).
  rewrite take_while_app_all, take_while_line_end, app_nil_r; [done | done | done |].
  eapply Forall_impl; [| exact Hnl]. intros x Hx. cbv beta. by rewrite bool_decide_eq_false_2.
Qed.

Lemma run_tail_digits (v t : pystr) :
  v <> [] -> Forall (fun x => is_digit x = true) v -> line_end t = true ->
  run_tail is_digit (" "%char :: v ++ t) = Some v.
Proof.
  intros Hne Hd Ht. destruct v as [|c r]; [done |]. inversion Hd as [|? ? Hc _]; subst.
  unfold run_tail. rewrite (drop_space_value (c :: r) t c r eq_refl (digit_not_space c Hc)).
  cbn [app run_at]. rewrite Hc. f_equal. change (c :: r ++ t) with ((c :: r) ++ t).
  by rewrite take_while_app_all, take_while_line_end, app_nil_r.
Qed.

Lemma year_tail_digits (v t : pystr) :
  length v = 4 -> Forall (fun x => is_digit x = true) v ->
  year_tail (" "%char :: v ++ t) = Some v.
Proof.
  intros Hlen Hd. destruct v as [|c r]; [done |]. inversion Hd as [|? ? Hc _]; subst.
  unfold year_tail. rewrite (drop_space_value (c :: r) t c r eq_refl (digit_not_space c Hc)).
  rewrite take_app_length' by done. rewrite bool_decide_eq_true_2 by (rewrite length_app; lia).
  cbn [andb]. replace (forallb is_digit (c :: r)) with true; [done |].
  symmetry. apply forallb_forall. intros x Hx. rewrite List.Forall_forall in Hd. by apply Hd.
Qed.

Lemma value_tail_dollar (v t : pystr) :
  v <> [] -> Forall (fun x => is_value_char x = true) v -> line_end t = true ->
  value_tail (" "%char :: "$"%char :: v ++ t) = Some v.
Proof.
  intros Hne Hd Ht. destruct v as [|c r]; [done |]. inversion Hd as [|? ? Hc _]; subst.
  change (value_tail (" "%char :: "$"%char :: (c :: r) ++ t)) with (run_at is_value_char (c :: r ++ t)).
  unfold run_at. rewrite Hc. f_equal.
  change (c :: r ++ t) with ((c :: r) ++ t).
  by rewrite take_while_app_all, take_while_line_end, app_nil_r.
Qed.

(** ** The six patterns as a label and a tail *)

Lemma mp_property_id (s : pystr) :
  match_at true p_property_id s = label_field (py "Property ID:") (run_tail is_digit) s.
Proof. apply match_at_property_id. Qed.

Lemma mp_location (s : pystr) : match_at true p_location s = label_field (py "Location:") line_tail s.
Proof. rewrite p_location_line. apply match_at_line. Qed.

Lemma mp_year_built (s : pystr) : match_at true p_year_built s = label_field (py "Year Built:") year_tail s.
Proof. apply match_at_year_built. Qed.

Lemma mp_condition (s : pystr) : match_at true p_condition s = label_field (py "Condition:") line_tail s.
Proof. rewrite p_condition_line. apply match_at_line. Qed.

Lemma mp_estimated_value (s : pystr) :
  match_at true p_estimated_value s = label_field (py "Estimated Value:") value_tail s.
Proof. apply match_at_estimated_value. Qed.

Lemma mp_hazards (s : pystr) : match_at true p_hazards s = label_field (py "Hazards:") line_tail s.
Proof. rewrite p_hazards_line. apply match_at_line. Qed.

Lemma digits_no_colon (v : pystr) :
  Forall (fun x => is_digit x = true) v -> Forall (fun x => x <> COLON) v.
Proof. apply Forall_impl. intros x Hx ->. discriminate Hx. Qed.

Lemma value_chars_no_colon (v : pystr) :
  Forall (fun x => is_value_char x = true) v -> Forall (fun x => x <> COLON) v.
Proof. apply Forall_impl. intros x Hx ->. discriminate Hx. Qed.

Lemma digits_strip (v : pystr) : Forall (fun x => is_digit x = true) v -> strip v = v.
Proof. intros H. apply strip_no_space. eapply Forall_impl; [| exact H]. apply digit_not_space. Qed.

Lemma value_chars_strip (v : pystr) : Forall (fun x => is_value_char x = true) v -> strip v = v.
Proof. intros H. apply strip_no_space. eapply Forall_impl; [| exact H]. apply value_char_not_space. Qed.

Create HintDb layout discriminated.
#[export] Hint Resolve digits_no_colon value_chars_no_colon : layout.

(** A decidable proposition on closed data, by evaluation. *)
Ltac decide_closed := apply (bool_decide_unpack _); vm_compute; exact I.

(** Step over one line of the report: the label of [Hp] is not on it. *)
Ltac skip_line Hp :=
  rewrite (search_skip _ _ _ _ _ _ Hp);
    [| vm_compute; reflexivity | vm_compute; reflexivity | auto with layout].

(** ** The whole report *)

Section Layout.
Variables id loc year cond val haz : pystr.
Hypothesis Hid : id <> [].
Hypothesis Hid_digits : Forall (fun x => is_digit x = true) id.
Hypothesis Hloc : text_value loc.
Hypothesis Hloc_colon : Forall (fun x => x <> COLON) loc.
Hypothesis Hyear_len : length year = 4.
Hypothesis Hyear_digits : Forall (fun x => is_digit x = true) year.
Hypothesis Hcond : text_value cond.
Hypothesis Hcond_colon : Forall (fun x => x <> COLON) cond.
Hypothesis Hval : val <> [].
Hypothesis Hval_chars : Forall (fun x => is_value_char x = true) val.
Hypothesis Hhaz : text_value haz.

Let text := report_text id loc year cond val haz.

Lemma layout_property_id : extract text p_property_id NA = id.
Proof.
  unfold extract, text, report_text.
  change (py "Property ID: ") with (py "Property ID:" ++ [" "%char]). rewrite <- app_assoc.
  rewrite (search_label_line _ _ _ _ id mp_property_id); [by apply digits_strip |].
  by apply (run_tail_digits id (NL :: _)).
Qed.

Lemma layout_location : extract text p_location NA = strip loc.
Proof.
  unfold extract, text, report_text. repeat skip_line mp_location.
  change (py "Location: ") with (py "Location:" ++ [" "%char]). rewrite <- app_assoc.
  destruct Hloc as ((c & r & Hv & Hc) & Hnl).
  by rewrite (search_label_line _ _ _ _ loc mp_location); [| apply (line_tail_value loc (NL :: _) c r)].
Qed.

Lemma layout_year_built : extract text p_year_built NA = year.
Proof.
  unfold extract, text, report_text. repeat skip_line mp_year_built.
  change (py "Year Built: ") with (py "Year Built:" ++ [" "%char]). rewrite <- app_assoc.
  rewrite (search_label_line _ _ _ _ year mp_year_built); [by apply digits_strip |].
  by apply (year_tail_digits year (NL :: _)).
Qed.

Lemma layout_condition : extract text p_condition NA = strip cond.
Proof.
  unfold extract, text, report_text. repeat skip_line mp_condition.
  change (py "Condition: ") with (py "Condition:" ++ [" "%char]). rewrite <- app_assoc.
  destruct Hcond as ((c & r & Hv & Hc) & Hnl).
  by rewrite (search_label_line _ _ _ _ cond mp_condition); [| apply (line_tail_value cond (NL :: _) c r)].
Qed.

Lemma layout_estimated_value : extract text p_estimated_value NA = val.
Proof.
  unfold extract, text, report_text. repeat skip_line mp_estimated_value.
  change (py "Estimated Value: $") with (py "Estimated Value:" ++ [" "%char; "$"%char]).
  rewrite <- app_assoc.
  rewrite (search_label_line _ _ _ _ val mp_estimated_value); [by apply value_chars_strip |].
  by apply (value_tail_dollar val (NL :: _)).
Qed.

Lemma layout_hazards : extract text p_hazards NA = strip haz.
Proof.
  unfold extract, text, report_text. repeat skip_line mp_hazards.
  change (py "Hazards: ") with (py "Hazards:" ++ [" "%char]). rewrite <- app_assoc.
  rewrite <- (app_nil_r haz). destruct Hhaz as ((c & r & Hv & Hc) & Hnl).
  rewrite (search_label_line _ _ _ _ haz mp_hazards); [by rewrite app_nil_r |].
  apply (line_tail_value haz [] c r); auto.
Qed.
End Layout.

(** C33: On a report of the spec's layout (the six labels on their own
    lines, in the spec's order), [parse_report] returns the six values:
    the Property ID, the year and the estimated value as written (the
    dollar sign dropped), and the three free-text values stripped, when
    the identifier is digits, the year four digits, the value digits and
    commas, the free-text values start with a non-blank character and
    stay on their line, and Location and Condition hold no colon. *)
Theorem parse_report_layout (id loc year cond val haz : pystr) :
  id <> [] -> Forall (fun x => is_digit x = true) id ->
  text_value loc -> Forall (fun x => x <> COLON) loc ->
  length year = 4 -> Forall (fun x => is_digit x = true) year ->
  text_value cond -> Forall (fun x => x <> COLON) cond ->
  val <> [] -> Forall (fun x => is_value_char x = true) val ->
  text_value haz ->
  parse_report (report_text id loc year cond val haz) =
  {| property_id := id; location := strip loc; year_built := year;
     condition := strip cond; estimated_value := val; hazards := strip haz |}.
Proof.
  intros. unfold parse_report.
  rewrite layout_property_id, layout_location, layout_year_built, layout_condition,
    layout_estimated_value, layout_hazards by assumption.
  reflexivity.
Qed.

(** C34: A label inside another field's value is taken for that field:
    when the Location value holds "Condition: x", the Condition field is
    [x], whatever the Condition line of the report says, because
    [re.search] returns the first occurrence of the label anywhere in
    the text (the spec describes each field as the value after its own
    label line). *)
Theorem label_inside_value (id pre x year cond val haz : pystr) :
  id <> [] -> Forall (fun c => is_digit c = true) id ->
  Forall (fun c => c <> COLON) pre -> text_value x ->
  condition (parse_report (report_text id (pre ++ py "Condition: " ++ x) year cond val haz)) =
  strip x.
Proof.
  intros Hid Hd Hpre ((c & r & Hx & Hc) & Hnl). cbn [parse_report condition].
  unfold extract, report_text. skip_line mp_condition.
  rewrite <- !app_assoc. rewrite app_assoc.
  rewrite (search_skip_prefix p_condition (py "Condition") line_tail); [| exact mp_condition
    | decide_closed | apply contains_label_colon_free; [vm_compute; reflexivity | exact Hpre] |].
  2: { rewrite (lower_app (py "Condition: ")).
       change (lower (py "Condition: ")) with ((lower (py "Condition") ++ lower [COLON]) ++ [" "%char]).
       rewrite <- (app_assoc _ [" "%char]). apply starts_with_self. }
  change (py "Condition: ") with (py "Condition:" ++ [" "%char]). rewrite <- app_assoc.
  by rewrite (search_label_line _ _ _ _ x mp_condition); [| apply (line_tail_value x (NL :: _) c r)].
Qed.

(** ** Witness *)

Lemma parse_report_layout_witness :
  parse_report (report_text (py "42") (py "1 Main St") (py "1985") (py "Water damage observed")
                  (py "100,000") (py "Flood zone")) =
  {| property_id := py "42"; location := strip (py "1 Main St"); year_built := py "1985";
     condition := strip (py "Water damage observed"); estimated_value := py "100,000";
     hazards := strip (py "Flood zone") |}.
Proof.
  apply parse_report_layout;
    solve [ discriminate | reflexivity | decide_closed
          | split; [eexists _, _; split; reflexivity | decide_closed] ].
Defined.

(** The Location line "12 Elm St Condition: Poor" decides the
    Condition field, not the line "Condition: Good". *)
Lemma label_inside_value_witness :
  condition (parse_report (report_text (py "42") (py "12 Elm St " ++ py "Condition: " ++ py "Poor")
    (py "1985") (py "Good") (py "100,000") (py "None"))) = strip (py "Poor").
Proof.
  apply label_inside_value;
    [discriminate | decide_closed | decide_closed | split; [eexists _, _; split; reflexivity | decide_closed]].
Defined.
