(* ===== verification/TextRiskScorer.v ===== *)
(** * TextRiskScorer: [score_risk] (src/app.py, lines 64-82)

    [score_risk(report_dict)] lower-cases Condition and Hazards, applies
    three cumulative rules and returns the score with the reasons joined
    by [", "].  The third rule calls [int()] on Year Built; for ["N/A"]
    this raises [ValueError], which nothing in the program catches.
    [score_risk] threads the pair (score, reasons) through the three
    [if] statements as the code does; [text_rules] is the rule table of
    the spec, and [score_risk_eval] shows the code evaluates it. *)

From stdpp Require Import base list strings decidable.
From Stdlib Require Import ZArith Lia Ascii.
From S2P Require Import Prelude PyStr Regex Rules TextExtractor.

Open Scope py_scope.

(** ** The code *)

Definition score_risk (report_dict : PropertyRecord) : result (Z * pystr) :=
  let risk_score := 0%Z in
  let reasons : list pystr := [] in
  let condition := lower (condition report_dict) in
  let hazards := lower (hazards report_dict) in
  let '(risk_score, reasons) :=
    if contains (py "water damage") condition
    then ((risk_score + 3)%Z, reasons ++ [py "Water damage"]) else (risk_score, reasons) in
  let '(risk_score, reasons) :=
    if contains (py "flood") hazards
    then ((risk_score + 4)%Z, reasons ++ [py "Flood risk"]) else (risk_score, reasons) in
  year <- py_int (year_built report_dict) ;;
  let '(risk_score, reasons) :=
    if (year <? 2000)%Z
    then ((risk_score + 2)%Z, reasons ++ [py "Old construction"]) else (risk_score, reasons) in
  Ok (risk_score, join (py ", ") reasons).

(** ** The rule table it implements *)

Definition water_damage_rule : rule (PropertyRecord * Z) :=
  Rule (fun '(r, _) => contains (py "water damage") (lower (condition r))) 3 (py "Water damage").

Definition flood_rule : rule (PropertyRecord * Z) :=
  Rule (fun '(r, _) => contains (py "flood") (lower (hazards r))) 4 (py "Flood risk").

Definition old_construction_rule : rule (PropertyRecord * Z) :=
  Rule (fun '(_, y) => (y <? 2000)%Z) 2 (py "Old construction").

Definition text_rules : list (rule (PropertyRecord * Z)) :=
  [water_damage_rule; flood_rule; old_construction_rule].

#[export] Instance text_scorer : RuleScorer (PropertyRecord * Z).
Proof. refine {| scorer_rules := text_rules |}. repeat constructor; simpl; lia. Defined.

(** The message of the exception [int()] raises: the [repr] of the
    argument, which is the text between single quotes for the strings
    the program passes (no quote or control character). *)
Definition int_error (s : pystr) : py_exc :=
  ValueError (py "invalid literal for int() with base 10: " ++ "'"%char :: s ++ ["'"%char]).

(** ** Refinement *)

(** The three [if] statements of [score_risk] evaluate [text_rules]. *)
Lemma score_risk_eval (r : PropertyRecord) :
  score_risk r =
  (year <- py_int (year_built r) ;;
   Ok (rules_score text_rules (r, year), join (py ", ") (rules_reasons text_rules (r, year)))).
Proof.
  unfold score_risk.
  destruct (contains (py "water damage") (lower (condition r))) eqn:E1,
           (contains (py "flood") (lower (hazards r))) eqn:E2;
  destruct (py_int (year_built r)) as [y|e]; simpl; try reflexivity;
  unfold text_rules; autorewrite with py_rw; cbn [rule_pred rule_weight rule_reason
    water_damage_rule flood_rule old_construction_rule];
  rewrite ?E1, ?E2; destruct (y <? 2000)%Z; reflexivity.
Qed.

(** C2: [score_risk] parses the year with [int()] (raising on failure)
    and otherwise returns the score and the joined reasons of the rule
    table [text_rules]: water damage +3, flood +4, built before 2000 +2,
    all evaluated, in this order. *)
Theorem score_risk_refines (r : PropertyRecord) :
  score_risk r =
  (year <- py_int (year_built r) ;;
   Ok (rules_score text_rules (r, year), join (py ", ") (rules_reasons text_rules (r, year)))).
Proof. exact (score_risk_eval r). Qed.

(** ** Error path *)

Lemma py_int_NA : py_int NA = Raise (int_error NA).
Proof. vm_compute. reflexivity. Qed.

(** [int("N/A")] raises inside [score_risk]. *)
Lemma score_risk_NA_raises (r : PropertyRecord) :
  year_built r = NA -> score_risk r = Raise (int_error NA).
Proof. intros H. rewrite score_risk_eval, H, py_int_NA. reflexivity. Qed.

(** C3: A record whose Year Built is ["N/A"] makes [score_risk] raise
    [ValueError] from [int("N/A")]: no recovery policy is applied (the
    spec asks for one). *)
Theorem score_risk_year_NA (r : PropertyRecord) :
  year_built r = NA -> score_risk r = Raise (int_error NA).
Proof. exact (score_risk_NA_raises r). Qed.

(** For a parsed report, [int()] fails exactly on ["N/A"]. *)
Lemma py_int_parsed_year (text : pystr) :
  year_built (parse_report text) <> NA ->
  exists y, py_int (year_built (parse_report text)) = Ok y /\ (0 <= y < 10000)%Z.
Proof.
  intros Hna. destruct (year_built_digits text) as [Heq | [Hlen Hd]]; [done |].
  assert (Hne : year_built (parse_report text) <> []) by (intros Hn; rewrite Hn in Hlen; done).
  exists (digits_acc 0 (year_built (parse_report text))).
  split; [by apply py_int_digits |].
  pose proof (digits_acc_bound _ 0 Hd ltac:(lia)) as Hb. rewrite Hlen in Hb.
  replace ((0 + 1) * 10 ^ Z.of_nat 4)%Z with 10000%Z in Hb by reflexivity. lia.
Qed.

(** When scoring a parsed report succeeds. *)
Lemma score_parsed_ok (text : pystr) :
  is_ok (score_risk (parse_report text)) = true <-> year_built (parse_report text) <> NA.
Proof.
  split.
  - intros Hok Hna. rewrite (score_risk_NA_raises _ Hna) in Hok. discriminate.
  - intros Hna. destruct (py_int_parsed_year text Hna) as (y & Hy & _).
    rewrite score_risk_eval, Hy. reflexivity.
Qed.

(** C13: Scoring a parsed report raises exactly when the report has no
    four-digit Year Built; otherwise it returns a score. *)
Theorem score_parsed_ok_iff (text : pystr) :
  is_ok (score_risk (parse_report text)) = true <-> year_built (parse_report text) <> NA.
Proof. exact (score_parsed_ok text). Qed.

(** ** Bounds *)

(** C24: The text risk score is between 0 and 9, the sum of the three
    weights. *)
Theorem score_risk_bounds (r : PropertyRecord) (s : Z) (reasons : pystr) :
  score_risk r = Ok (s, reasons) -> (0 <= s <= 9)%Z.
Proof.
  rewrite score_risk_eval. intros H. inv_bind. subst s.
  exact (scorer_bounds (H := text_scorer) (r, _)).
Qed.

(** ** Functional behaviour *)

(** C25: A record whose Condition mentions water damage in any case,
    with no flood hazard and a year from 2000 on, scores 3 with the one
    reason "Water damage". *)
Theorem score_risk_water_damage_only (r : PropertyRecord) (y : Z) :
  contains (py "water damage") (lower (condition r)) = true ->
  contains (py "flood") (lower (hazards r)) = false ->
  py_int (year_built r) = Ok y -> (2000 <= y)%Z ->
  score_risk r = Ok (3%Z, py "Water damage").
Proof.
  intros Hw Hf Hy Hold. rewrite score_risk_eval, Hy. simpl bind.
  unfold text_rules. autorewrite with py_rw.
  cbn [rule_pred rule_weight rule_reason water_damage_rule flood_rule old_construction_rule].
  rewrite Hw, Hf. replace (y <? 2000)%Z with false by lia. reflexivity.
Qed.

(** ** Witnesses *)

Definition record_no_year : PropertyRecord := {|
  property_id := py "7"; location := py "2 Elm St"; year_built := NA;
  condition := py "Good"; estimated_value := py "250,000"; hazards := py "None" |}.

Lemma score_risk_year_NA_witness : score_risk record_no_year = Raise (int_error NA).
Proof. apply score_risk_year_NA. reflexivity. Defined.

Definition record_basement : PropertyRecord := {|
  property_id := py "8"; location := py "3 Oak Ave"; year_built := py "2005";
  condition := py "WATER DAMAGE in basement"; estimated_value := py "90,000";
  hazards := py "None" |}.

Lemma score_risk_bounds_witness :
  score_risk record_basement = Ok (3%Z, py "Water damage") /\ (0 <= 3 <= 9)%Z.
Proof.
  assert (H : score_risk record_basement = Ok (3%Z, py "Water damage"))
    by (vm_compute; reflexivity).
  split; [exact H | exact (score_risk_bounds _ _ _ H)].
Defined.

Lemma score_risk_water_damage_only_witness :
  score_risk record_basement = Ok (3%Z, py "Water damage").
Proof.
  apply (score_risk_water_damage_only record_basement 2005);
    [vm_compute; reflexivity | vm_compute; reflexivity | vm_compute; reflexivity | lia].
Defined.
