(* ===== verification/RiskClassifier.v ===== *)
(** * RiskClassifier: [classify_risk] (src/app.py, lines 84-90)

    [classify_risk(score)] maps the total score to a risk level and an
    underwriting decision with two thresholds, 7 and 4, tested in that
    order.  The Python function returns a pair of strings; the model
    returns a pair of enumerations, and [level_name] and [decision_name]
    give the strings written to the report. *)

From stdpp Require Import base list strings decidable.
From Stdlib Require Import ZArith Lia Ascii.
From S2P Require Import Prelude PyStr.

Open Scope py_scope.

Inductive risk_level := High | Medium | Low.
Inductive decision := Reject | Review | Approve.

#[export] Instance risk_level_eq_dec : EqDecision risk_level.
Proof. solve_decision. Defined.
#[export] Instance decision_eq_dec : EqDecision decision.
Proof. solve_decision. Defined.

Definition level_name (l : risk_level) : pystr :=
  match l with High => py "High" | Medium => py "Medium" | Low => py "Low" end.

Definition decision_name (d : decision) : pystr :=
  match d with Reject => py "Reject" | Review => py "Review" | Approve => py "Approve" end.

Definition classify_risk (score : Z) : risk_level * decision :=
  if (7 <=? score)%Z then (High, Reject)
  else if (4 <=? score)%Z then (Medium, Review)
  else (Low, Approve).

(** The order of the levels, for monotonicity. *)
Definition level_rank (l : risk_level) : nat :=
  match l with Low => 0 | Medium => 1 | High => 2 end.

(** The decision that goes with each level. *)
Definition decision_of (l : risk_level) : decision :=
  match l with High => Reject | Medium => Review | Low => Approve end.

(** ** Theorems *)

(** The three tiers of [classify_risk] as conditions on the score. *)
Lemma classify_risk_tiers (s : Z) :
  (classify_risk s = (High, Reject) <-> (7 <= s)%Z) /\
  (classify_risk s = (Medium, Review) <-> (4 <= s < 7)%Z) /\
  (classify_risk s = (Low, Approve) <-> (s < 4)%Z).
Proof.
  unfold classify_risk.
  destruct (Z.leb_spec 7 s), (Z.leb_spec 4 s);
    repeat split; intros; try discriminate; try lia; reflexivity.
Qed.

(** C1: [classify_risk] gives (High, Reject) exactly from 7 on,
    (Medium, Review) exactly from 4 to 6, and (Low, Approve) exactly
    below 4; 4 and 7 are the inclusive lower bounds of their tiers. *)
Theorem classify_risk_spec (s : Z) :
  (classify_risk s = (High, Reject) <-> (7 <= s)%Z) /\
  (classify_risk s = (Medium, Review) <-> (4 <= s < 7)%Z) /\
  (classify_risk s = (Low, Approve) <-> (s < 4)%Z).
Proof. exact (classify_risk_tiers s). Qed.

(** C26: A higher total score never gives a lower risk level. *)
Theorem classify_risk_monotone (s1 s2 : Z) :
  (s1 <= s2)%Z -> level_rank (classify_risk s1).1 <= level_rank (classify_risk s2).1.
Proof.
  intros H. unfold classify_risk.
  destruct (Z.leb_spec 7 s1), (Z.leb_spec 4 s1), (Z.leb_spec 7 s2), (Z.leb_spec 4 s2);
    simpl; lia.
Qed.

(** C27: The decision is a function of the level: Reject for High,
    Review for Medium, Approve for Low. *)
Theorem classify_risk_decision (s : Z) :
  (classify_risk s).2 = decision_of (classify_risk s).1.
Proof. unfold classify_risk. by destruct (7 <=? s)%Z, (4 <=? s)%Z. Qed.

(** ** Witnesses *)

Lemma classify_risk_monotone_witness :
  level_rank (classify_risk 3).1 <= level_rank (classify_risk 4).1.
Proof. apply classify_risk_monotone. lia. Defined.

(** The boundary values listed by the spec. *)
Lemma classify_risk_boundaries :
  classify_risk 0 = (Low, Approve) /\ classify_risk 3 = (Low, Approve) /\
  classify_risk 4 = (Medium, Review) /\ classify_risk 6 = (Medium, Review) /\
  classify_risk 7 = (High, Reject) /\ classify_risk 10 = (High, Reject).
Proof.
  repeat split; apply classify_risk_tiers; lia.
Defined.
