(* ===== verification/ImageRiskScanner.v ===== *)
(** * ImageRiskScanner: [analyze_images] (src/app.py, lines 20-44)

    [analyze_images(image_dir)] walks [os.listdir(image_dir)], keeps the
    names that end with [.jpg], [.jpeg] or [.png] (case-sensitively),
    reads each image with OpenCV, runs Tesseract OCR on it and scores the
    recognised text with two keyword rules.  The directory listing is an
    input of the model (its order is the order [os.listdir] returns); the
    image reading and OCR pair is the collaborator [ocr], a function from
    the image path to the recognised text that may raise.  [image_risk]
    is the scoring part; [image_rules] is its rule table. *)

From stdpp Require Import base list strings decidable.
From Stdlib Require Import ZArith Lia Ascii.
From S2P Require Import Prelude PyStr Rules.

Open Scope py_scope.

(** One element of the list [results]: a dictionary with four keys. *)
Record ImageFinding := {
  image_file : pystr;
  ocr_text : pystr;
  image_risk_score : Z;
  image_risk_factors : pystr
}.

(** [file.endswith(".jpg") or file.endswith(".jpeg") or file.endswith(".png")] *)
Definition has_image_ext (file : pystr) : bool :=
  ends_with (py ".jpg") file || ends_with (py ".jpeg") file || ends_with (py ".png") file.

(** [os.path.join(a, b)] on POSIX: an absolute [b] replaces [a]; a
    separator is inserted unless [a] is empty or already ends with one. *)
Definition path_join (a b : pystr) : pystr :=
  if starts_with (py "/") b then b
  else if bool_decide (a = []) || ends_with (py "/") a then a ++ b
  else a ++ py "/" ++ b.

(** The two keyword checks on the recognised text, lines 28-36. *)
Definition image_risk (text : pystr) : Z * list pystr :=
  let score := 0%Z in
  let reasons : list pystr := [] in
  let '(score, reasons) :=
    if contains (py "crack") (lower text)
    then ((score + 3)%Z, reasons ++ [py "Cracks detected"]) else (score, reasons) in
  let '(score, reasons) :=
    if contains (py "leak") (lower text)
    then ((score + 2)%Z, reasons ++ [py "Leakage mentioned"]) else (score, reasons) in
  (score, reasons).

Definition image_rules : list (rule pystr) :=
  [Rule (fun t => contains (py "crack") (lower t)) 3 (py "Cracks detected");
   Rule (fun t => contains (py "leak") (lower t)) 2 (py "Leakage mentioned")].

#[export] Instance image_scorer : RuleScorer pystr.
Proof. refine {| scorer_rules := image_rules |}. repeat constructor; simpl; lia. Defined.

Section Scan.
(** [pytesseract.image_to_string(cv2.imread(img_path))]. *)
Variable ocr : pystr -> result pystr.

(** The body of the loop for one image file. *)
Definition analyze_file (image_dir file : pystr) : result ImageFinding :=
  let img_path := path_join image_dir file in
  text <- ocr img_path ;;
  let '(score, reasons) := image_risk text in
  Ok {| image_file := file; ocr_text := text; image_risk_score := score;
        image_risk_factors := join (py ", ") reasons |}.

Fixpoint analyze_images (image_dir : pystr) (listing : list pystr) : result (list ImageFinding) :=
  match listing with
  | [] => Ok []
  | file :: rest =>
      if has_image_ext file then
        finding <- analyze_file image_dir file ;;
        results <- analyze_images image_dir rest ;;
        Ok (finding :: results)
      else analyze_images image_dir rest
  end.
End Scan.

(** ** Theorems *)

Section ScanTheorems.
Variable ocr : pystr -> result pystr.

(** The loop is a filter on the extension followed by a loop that
    raises at the first failing image. *)
Lemma analyze_images_filter (image_dir : pystr) (listing : list pystr) :
  analyze_images ocr image_dir listing =
  map_result (analyze_file ocr image_dir) (filter (fun f => has_image_ext f = true) listing).
Proof.
  induction listing as [|file rest IH]; [reflexivity |].
  simpl. rewrite filter_cons. destruct (has_image_ext file); simpl; [| exact IH].
  by rewrite IH.
Qed.

(** The two keyword checks evaluate [image_rules]. *)
Lemma image_risk_eval (text : pystr) :
  image_risk text = (rules_score image_rules text, rules_reasons image_rules text).
Proof.
  unfold image_risk, image_rules. autorewrite with py_rw. cbn [rule_pred rule_weight rule_reason].
  by destruct (contains (py "crack") (lower text)), (contains (py "leak") (lower text)).
Qed.

(** C14: The keyword checks on the recognised text evaluate the rule
    table [image_rules]: "crack" in any case +3, "leak" in any case +2,
    both checked, in this order. *)
Theorem image_risk_refines (text : pystr) :
  image_risk text = (rules_score image_rules text, rules_reasons image_rules text).
Proof. exact (image_risk_eval text). Qed.

Lemma analyze_file_Ok (image_dir file : pystr) (f : ImageFinding) :
  analyze_file ocr image_dir file = Ok f ->
  image_file f = file /\ ocr (path_join image_dir file) = Ok (ocr_text f) /\
  image_risk_score f = rules_score image_rules (ocr_text f) /\
  image_risk_factors f = join (py ", ") (rules_reasons image_rules (ocr_text f)).
Proof.
  unfold analyze_file. intros H. inv_bind.
  rewrite image_risk_eval in H. injection H as <-. simpl. auto.
Qed.

(** The findings of a completed image scan. *)
Lemma analyze_images_findings (image_dir : pystr) (listing : list pystr) (fs : list ImageFinding) :
  analyze_images ocr image_dir listing = Ok fs ->
  map image_file fs = filter (fun f => has_image_ext f = true) listing /\
  Forall (fun f => ocr (path_join image_dir (image_file f)) = Ok (ocr_text f) /\
                   image_risk_score f = rules_score image_rules (ocr_text f) /\
                   (0 <= image_risk_score f <= 5)%Z) fs.
Proof.
  rewrite analyze_images_filter, map_result_Ok. intros H.
  induction H as [|file f files fs' Hf _ [IHmap IHall]]; [split; constructor |].
  apply analyze_file_Ok in Hf as (<- & Hocr & Hscore & _). simpl. rewrite IHmap.
  split; [reflexivity |]. constructor; [| exact IHall].
  split; [exact Hocr |]. split; [exact Hscore |].
  rewrite Hscore. exact (scorer_bounds (H := image_scorer) _).
Qed.

(** C15: When [analyze_images] returns, it has one finding per file
    with an image extension, in listing order; each finding holds the
    OCR text of that file and the score and reasons of [image_rules]
    on it, and the score is between 0 and 5. *)
Theorem analyze_images_Ok (image_dir : pystr) (listing : list pystr) (fs : list ImageFinding) :
  analyze_images ocr image_dir listing = Ok fs ->
  map image_file fs = filter (fun f => has_image_ext f = true) listing /\
  Forall (fun f => ocr (path_join image_dir (image_file f)) = Ok (ocr_text f) /\
                   image_risk_score f = rules_score image_rules (ocr_text f) /\
                   (0 <= image_risk_score f <= 5)%Z) fs.
Proof. exact (analyze_images_findings image_dir listing fs). Qed.

Lemma analyze_images_returns (image_dir : pystr) (listing : list pystr) :
  (forall p, is_ok (ocr p) = true) ->
  exists fs, analyze_images ocr image_dir listing = Ok fs.
Proof.
  intros Hocr. induction listing as [|file rest [fs IH]]; [eauto |]. simpl.
  destruct (has_image_ext file); [| eauto]. rewrite IH. unfold analyze_file.
  specialize (Hocr (path_join image_dir file)).
  destruct (ocr (path_join image_dir file)); [| discriminate]. simpl.
  destruct (image_risk a). eauto.
Qed.

(** C16: An exception of the OCR engine on one image file aborts the
    whole image analysis with that exception, when the image files
    before it were read: there is no per-image isolation. *)
Theorem ocr_failure_aborts (image_dir : pystr) (l1 : list pystr) (file : pystr)
    (l2 : list pystr) (e : py_exc) :
  has_image_ext file = true ->
  ocr (path_join image_dir file) = Raise e ->
  Forall (fun f => is_ok (ocr (path_join image_dir f)) = true) l1 ->
  analyze_images ocr image_dir (l1 ++ file :: l2) = Raise e.
Proof.
  intros Hext Hocr Hprev. rewrite analyze_images_filter. apply map_result_Raise.
  exists (filter (fun f => has_image_ext f = true) l1), file,
         (filter (fun f => has_image_ext f = true) l2).
  split; [by rewrite list.filter_app, filter_cons_True |]. split.
  - apply Forall_filter_of. eapply Forall_impl; [| exact Hprev]. intros f Hf.
    cbv beta in Hf. unfold analyze_file. destruct (ocr (path_join image_dir f)); [| discriminate Hf].
    simpl. by destruct (image_risk a).
  - unfold analyze_file. by rewrite Hocr.
Qed.
End ScanTheorems.

(** C17: The extension test is case-sensitive: a file whose name ends
    in [.JPG], [.JPEG] or [.PNG] is not analysed (the spec says the
    suffix is matched case-insensitively). *)
Theorem upper_case_ext_skipped (file : pystr) :
  ends_with (py ".JPG") file = true \/ ends_with (py ".JPEG") file = true \/
  ends_with (py ".PNG") file = true ->
  has_image_ext file = false.
Proof.
  intros Hup. unfold has_image_ext.
  destruct Hup as [H | [H | H]]; apply ends_with_spec in H as [r ->];
    unfold ends_with; rewrite !rev_app_distr; reflexivity.
Qed.

(** ** Witnesses *)

(** A stub OCR engine: the front photo of property 1023 shows a crack,
    every other image has no text. *)
Definition stub_ocr (img_path : pystr) : result pystr :=
  if bool_decide (img_path = py "../images/1023_front.jpg")
  then Ok (py "minor crack near foundation") else Ok [].

(** An engine that fails on one unreadable file. *)
Definition failing_ocr (img_path : pystr) : result pystr :=
  if bool_decide (img_path = py "../images/bad.png")
  then Raise (CollaboratorError (py "unreadable image")) else Ok [].

Definition sample_listing : list pystr :=
  [py "1023_front.jpg"; py "notes.txt"; py "9999.png"].

Lemma analyze_images_Ok_witness :
  map image_file
      [{| image_file := py "1023_front.jpg"; ocr_text := py "minor crack near foundation";
          image_risk_score := 3; image_risk_factors := py "Cracks detected" |};
       {| image_file := py "9999.png"; ocr_text := [];
          image_risk_score := 0; image_risk_factors := [] |}] =
  filter (fun f => has_image_ext f = true) sample_listing.
Proof.
  apply (analyze_images_Ok stub_ocr (py "../images/") sample_listing).
  vm_compute. reflexivity.
Defined.

Lemma ocr_failure_aborts_witness :
  analyze_images failing_ocr (py "../images/") ([py "a.jpg"] ++ py "bad.png" :: [py "c.png"]) =
  Raise (CollaboratorError (py "unreadable image")).
Proof.
  apply ocr_failure_aborts; [vm_compute; reflexivity | vm_compute; reflexivity |].
  repeat constructor.
Defined.

Lemma upper_case_ext_skipped_witness : has_image_ext (py "front.JPG") = false.
Proof. apply upper_case_ext_skipped. left. vm_compute. reflexivity. Defined.

(** The image scenario of the spec. *)
Example image_risk_crack : image_risk (py "minor crack near foundation") = (3%Z, [py "Cracks detected"]).
Proof. vm_compute. reflexivity. Qed.
