(* ===== verification/Pipeline.v ===== *)
(** * PipelineOrchestrator and RecordReconciler: the [__main__] block
    (src/app.py, lines 16-18 and 97-141)

    The main block loads the reports, parses and scores each one, scans
    the images, then for each report looks up the images whose file name
    contains the Property ID in a pandas DataFrame, merges the first
    match, totals the scores and classifies the total.

    - [load_reports] is [f.read().split("\n---\n")] on the file content;
    - [analyze_report] is the body of the first loop (lines 102-107);
    - [image_lookup] is [image_df[image_df["Image File"].str.contains(prop_id)]]:
      a DataFrame built from an empty list has no column, so indexing
      ["Image File"] raises [KeyError]; [str.contains] reads [prop_id] as a
      regular expression, which for the values [parse_report] produces
      (digits or ["N/A"], as TextExtractor.v proves of the Property ID) is a plain
      substring test;
    - [squeeze] is [DataFrame.squeeze()] on the four-column result: no row
      stays a DataFrame (and [.empty] holds), one row becomes a Series,
      more rows stay a DataFrame;
    - [combine_one] is the body of the second loop (lines 114-136).  With
      several matching rows every assignment stores a Series, and the
      first comparison [score >= 7] inside [classify_risk] raises
      [ValueError] (the truth value of a Series is ambiguous);
    - [main] sequences the two loops and the image scan as the code does.
    The CSV writing and the printing are I/O and are not modelled. *)

From stdpp Require Import base list strings decidable.
From Stdlib Require Import ZArith Lia Ascii.
From S2P Require Import Prelude PyStr Regex Rules TextExtractor TextRiskScorer RiskClassifier ImageRiskScanner.

Open Scope py_scope.

(** ** Data *)

Definition REPORT_SEP : pystr := [NL] ++ py "---" ++ [NL].
Definition IMAGE_DIR : pystr := py "../images/".

(** One row of the final DataFrame: the dictionary [r] after the second
    loop, with its fifteen keys in insertion order. *)
Record UnderwritingRow := {
  row_property : PropertyRecord;
  risk_score : Z;
  risk_factors : pystr;
  row_image_file : pystr;
  image_ocr_text : pystr;
  row_image_risk_score : Z;
  row_image_risk_factors : pystr;
  total_risk_score : Z;
  row_risk_level : risk_level;
  underwriting_decision : decision
}.

(** What [DataFrame.squeeze()] returns on the filtered frame. *)
Inductive squeezed :=
  | SqEmpty
  | SqRow (f : ImageFinding)
  | SqFrame (fs : list ImageFinding).

Definition series_truth_error : py_exc :=
  ValueError (py "The truth value of a Series is ambiguous. Use a.empty, a.bool(), a.item(), a.any() or a.all().").

(** ** Operations *)

Definition load_reports (contents : pystr) : result (list pystr) :=
  split REPORT_SEP contents.

Definition analyze_report (report : pystr) : result (PropertyRecord * Z * pystr) :=
  let parsed := parse_report report in
  sr <- score_risk parsed ;;
  Ok (parsed, sr.1, sr.2).

Definition image_lookup (image_results : list ImageFinding) (prop_id : pystr) :
    result (list ImageFinding) :=
  match image_results with
  | [] => Raise (KeyError (py "Image File"))
  | _ :: _ => Ok (filter (fun f => contains prop_id (image_file f) = true) image_results)
  end.

Definition squeeze (rows : list ImageFinding) : squeezed :=
  match rows with
  | [] => SqEmpty
  | [f] => SqRow f
  | _ :: _ :: _ => SqFrame rows
  end.

(** The row for a report, given the image columns and the total. *)
Definition make_row (r : PropertyRecord) (score : Z) (reason img_file img_text : pystr)
    (img_score : Z) (img_factors : pystr) (total : Z) : UnderwritingRow :=
  let '(level, dec) := classify_risk total in
  {| row_property := r; risk_score := score; risk_factors := reason;
     row_image_file := img_file; image_ocr_text := img_text;
     row_image_risk_score := img_score; row_image_risk_factors := img_factors;
     total_risk_score := total; row_risk_level := level; underwriting_decision := dec |}.

Definition combine_one (image_results : list ImageFinding) (x : PropertyRecord * Z * pystr) :
    result UnderwritingRow :=
  let '(r, score, reason) := x in
  matching_rows <- image_lookup image_results (property_id r) ;;
  match squeeze matching_rows with
  | SqRow m =>
      Ok (make_row r score reason (image_file m) (ocr_text m) (image_risk_score m)
            (image_risk_factors m) (score + image_risk_score m))
  | SqEmpty => Ok (make_row r score reason NA [] 0 [] score)
  | SqFrame _ => Raise series_truth_error
  end.

Section Main.
Variable ocr : pystr -> result pystr.

Definition main (report_file_contents : pystr) (image_listing : list pystr) :
    result (list UnderwritingRow) :=
  reports <- load_reports report_file_contents ;;
  results <- map_result analyze_report reports ;;
  image_results <- analyze_images ocr IMAGE_DIR image_listing ;;
  map_result (combine_one image_results) results.
End Main.

(** The texts of the reports: [split] with a non-empty separator. *)
Definition report_texts (contents : pystr) : list pystr := split_go REPORT_SEP contents [].

(** ** Loading *)

Lemma load_reports_texts (contents : pystr) : load_reports contents = Ok (report_texts contents).
Proof. reflexivity. Qed.

(** C23: [load_reports] always returns at least one report; joining the
    reports with the separator gives back the file content, and no report
    contains the separator. *)
Theorem load_reports_roundtrip (contents : pystr) :
  exists reports, load_reports contents = Ok reports /\ reports <> [] /\
    join REPORT_SEP reports = contents /\ Forall (fun r => ~ infix REPORT_SEP r) reports.
Proof.
  exists (report_texts contents). split; [reflexivity |]. split; [apply split_go_nonempty |].
  split; [apply split_go_join |].
  apply split_go_no_sep; [discriminate |]. intros Hi. by apply infix_nil_inv in Hi.
Qed.

(** ** Rows *)

Lemma make_row_spec (r : PropertyRecord) (score : Z) (reason f t : pystr) (isc : Z)
    (ifs : pystr) (total : Z) :
  let row := make_row r score reason f t isc ifs total in
  row_property row = r /\ risk_score row = score /\ risk_factors row = reason /\
  row_image_file row = f /\ row_image_risk_score row = isc /\ total_risk_score row = total /\
  classify_risk total = (row_risk_level row, underwriting_decision row).
Proof. unfold make_row. destruct (classify_risk total). simpl. auto 7. Qed.

Lemma analyze_report_Ok (rep : pystr) (x : PropertyRecord * Z * pystr) :
  analyze_report rep = Ok x ->
  x.1.1 = parse_report rep /\ score_risk (parse_report rep) = Ok (x.1.2, x.2).
Proof. unfold analyze_report. intros H. inv_bind. subst x. destruct x0. auto. Qed.

(** What a row of [combine_one] holds: the record and the text score it
    was given, an image score that is 0 or the score of an image of the
    table, and the classification of the sum. *)
Lemma combine_one_Ok (imgs : list ImageFinding) (r : PropertyRecord) (score : Z)
    (reason : pystr) (row : UnderwritingRow) :
  combine_one imgs (r, score, reason) = Ok row ->
  row_property row = r /\ risk_score row = score /\ risk_factors row = reason /\
  (row_image_risk_score row = 0%Z \/ exists f, f ∈ imgs /\ row_image_risk_score row = image_risk_score f) /\
  total_risk_score row = (score + row_image_risk_score row)%Z /\
  classify_risk (total_risk_score row) = (row_risk_level row, underwriting_decision row).
Proof.
  unfold combine_one. intros H. inv_bind.
  assert (Hsub : forall f, f ∈ x -> f ∈ imgs).
  { destruct imgs; simpl in H0; [discriminate |]. injection H0 as <-.
    intros f Hf. by apply list_elem_of_filter in Hf as [_ ?]. }
  destruct x as [|m [|m' rest]]; simpl in H; try discriminate; injection H as <-.
  - destruct (make_row_spec r score reason NA [] 0 [] score) as (? & ? & ? & _ & Hi & Ht & ?).
    rewrite Hi in *. repeat split; auto; rewrite Ht; auto; lia.
  - destruct (make_row_spec r score reason (image_file m) (ocr_text m) (image_risk_score m)
                (image_risk_factors m) (score + image_risk_score m)) as (? & ? & ? & _ & Hi & Ht & ?).
    rewrite Hi in *. repeat split; auto; try (rewrite Ht; auto; lia).
    right. exists m. split; [apply Hsub; left | done].
Qed.

Lemma analyze_report_ok_iff (rep : pystr) :
  is_ok (analyze_report rep) = true <-> year_built (parse_report rep) <> NA.
Proof.
  rewrite <- score_parsed_ok. unfold analyze_report.
  by destruct (score_risk (parse_report rep)).
Qed.

Lemma analyze_report_NA (rep : pystr) :
  year_built (parse_report rep) = NA -> analyze_report rep = Raise (int_error NA).
Proof. intros H. unfold analyze_report. by rewrite (score_risk_NA_raises _ H). Qed.

Lemma image_lookup_nonempty (imgs : list ImageFinding) (p : pystr) :
  imgs <> [] ->
  image_lookup imgs p = Ok (filter (fun f => contains p (image_file f) = true) imgs).
Proof. by destruct imgs. Qed.

(** ** Reconciliation *)

(** C6: A report whose Property ID occurs in no image file name gets
    image file ["N/A"], image score 0, and a total equal to its text
    score, when the image table is not empty. *)
Theorem reconcile_no_match (imgs : list ImageFinding) (r : PropertyRecord) (score : Z)
    (reason : pystr) :
  imgs <> [] -> Forall (fun f => contains (property_id r) (image_file f) = false) imgs ->
  exists row, combine_one imgs (r, score, reason) = Ok row /\
    row_image_file row = NA /\ row_image_risk_score row = 0%Z /\
    total_risk_score row = score.
Proof.
  intros Hne Hnone. unfold combine_one. rewrite image_lookup_nonempty by exact Hne. simpl.
  rewrite filter_none. 2: { eapply Forall_impl; [| exact Hnone]. intros f Hf. cbv beta in Hf. congruence. }
  eexists; split; [reflexivity |].
  destruct (make_row_spec r score reason NA [] 0 [] score) as (_ & _ & _ & ? & ? & ? & _). auto.
Qed.

(** The row of a report with exactly one matching image. *)
Lemma reconcile_unique (imgs : list ImageFinding) (r : PropertyRecord) (score : Z)
    (reason : pystr) (f : ImageFinding) :
  filter (fun g => contains (property_id r) (image_file g) = true) imgs = [f] ->
  exists row, combine_one imgs (r, score, reason) = Ok row /\
    row_image_file row = image_file f /\ row_image_risk_score row = image_risk_score f /\
    total_risk_score row = (score + image_risk_score f)%Z.
Proof.
  intros Hf. unfold combine_one.
  rewrite image_lookup_nonempty by (intros ->; discriminate). simpl. rewrite Hf.
  eexists; split; [reflexivity |].
  destruct (make_row_spec r score reason (image_file f) (ocr_text f) (image_risk_score f)
              (image_risk_factors f) (score + image_risk_score f)) as (_ & _ & _ & ? & ? & ? & _).
  auto.
Qed.

(** C5: A report whose Property ID occurs in exactly one image file
    name gets that image's columns, and its total is its text score
    plus that image's score. *)
Theorem reconcile_unique_match (imgs : list ImageFinding) (r : PropertyRecord) (score : Z)
    (reason : pystr) (f : ImageFinding) :
  filter (fun g => contains (property_id r) (image_file g) = true) imgs = [f] ->
  exists row, combine_one imgs (r, score, reason) = Ok row /\
    row_image_file row = image_file f /\ row_image_risk_score row = image_risk_score f /\
    total_risk_score row = (score + image_risk_score f)%Z.
Proof. exact (reconcile_unique imgs r score reason f). Qed.

(** C7: When two or more image file names contain the Property ID, the
    report is not merged: the Series that [squeeze] leaves reaches
    [classify_risk] and the comparison raises [ValueError] (the spec asks
    for a deterministic tie-break). *)
Theorem reconcile_ambiguous (imgs : list ImageFinding) (r : PropertyRecord) (score : Z)
    (reason : pystr) :
  2 <= length (filter (fun g => contains (property_id r) (image_file g) = true) imgs) ->
  combine_one imgs (r, score, reason) = Raise series_truth_error.
Proof.
  intros H2. unfold combine_one.
  rewrite image_lookup_nonempty by (intros ->; simpl in H2; lia). simpl.
  destruct (filter _ imgs) as [|a [|b rest]]; simpl in H2; [lia | lia | reflexivity].
Qed.

(** ** The whole batch *)

Section MainTheorems.
Variable ocr : pystr -> result pystr.

(** The rows of a completed run, report by report. *)
Lemma main_rows_spec (contents : pystr) (listing : list pystr) (rows : list UnderwritingRow) :
  main ocr contents listing = Ok rows ->
  Forall2 (fun rep row =>
    row_property row = parse_report rep /\
    score_risk (parse_report rep) = Ok (risk_score row, risk_factors row) /\
    (0 <= row_image_risk_score row <= 5)%Z /\
    total_risk_score row = (risk_score row + row_image_risk_score row)%Z /\
    classify_risk (total_risk_score row) = (row_risk_level row, underwriting_decision row))
    (report_texts contents) rows.
Proof.
  unfold main. rewrite load_reports_texts. simpl. intros H.
  apply bind_Ok in H as (results & Hres & H). apply bind_Ok in H as (imgs & Himgs & H).
  apply map_result_Ok in Hres, H.
  destruct (analyze_images_findings ocr IMAGE_DIR listing imgs Himgs) as [_ Hall].
  pose proof (Forall2_compose _ _ _ _ _ Hres H) as Hcomp.
  eapply Forall2_impl; [| exact Hcomp].
  intros rep row ([[p s] m] & Hx & Hrow).
  apply analyze_report_Ok in Hx as [Hp Hs]. simpl in Hp, Hs. subst p.
  apply combine_one_Ok in Hrow as (-> & -> & -> & Himg & Ht & Hc).
  repeat split; auto.
  all: destruct Himg as [-> | (f & Hf & ->)]; [lia |].
  all: rewrite list.Forall_forall in Hall; destruct (Hall f Hf) as (_ & _ & Hb); lia.
Qed.

(** C4: When the program completes, it has produced one row per
    report, in the order of the reports file: the parsed record, the
    text score and reasons of [score_risk], an image score between 0
    and 5, the total of the two, and the level and decision of
    [classify_risk] on the total. *)
Theorem main_rows (contents : pystr) (listing : list pystr) (rows : list UnderwritingRow) :
  main ocr contents listing = Ok rows ->
  Forall2 (fun rep row =>
    row_property row = parse_report rep /\
    score_risk (parse_report rep) = Ok (risk_score row, risk_factors row) /\
    (0 <= row_image_risk_score row <= 5)%Z /\
    total_risk_score row = (risk_score row + row_image_risk_score row)%Z /\
    classify_risk (total_risk_score row) = (row_risk_level row, underwriting_decision row))
    (report_texts contents) rows.
Proof. exact (main_rows_spec contents listing rows). Qed.

(** C8: With no image file in the directory, every report of a batch
    that parses raises [KeyError('Image File')]: the DataFrame built from
    an empty list has no column, so the program fails instead of
    reporting zero image contribution. *)
Theorem main_no_images (contents : pystr) (listing : list pystr) :
  filter (fun f => has_image_ext f = true) listing = [] ->
  Forall (fun rep => year_built (parse_report rep) <> NA) (report_texts contents) ->
  main ocr contents listing = Raise (KeyError (py "Image File")).
Proof.
  intros Hnoimg Hyears. unfold main. rewrite load_reports_texts. simpl.
  destruct (map_result_total analyze_report (report_texts contents)) as [results Hres].
  { eapply Forall_impl; [| exact Hyears]. intros rep. apply analyze_report_ok_iff. }
  rewrite Hres. simpl. rewrite analyze_images_filter, Hnoimg. simpl.
  pose proof (map_result_length _ _ _ Hres) as Hlen.
  destruct results as [|[[p s] m] results].
  - pose proof (split_go_nonempty REPORT_SEP contents []) as Hne.
    unfold report_texts in Hlen. destruct (split_go REPORT_SEP contents []); [done | discriminate].
  - reflexivity.
Qed.

(** C9: One report without a four-digit Year Built aborts the whole
    batch with the [ValueError] of [int("N/A")], whatever the other
    reports and the images are (the spec asks for per-record isolation). *)
Theorem main_bad_report_aborts (contents : pystr) (listing : list pystr)
    (l1 : list pystr) (rep : pystr) (l2 : list pystr) :
  report_texts contents = l1 ++ rep :: l2 ->
  Forall (fun r => year_built (parse_report r) <> NA) l1 ->
  year_built (parse_report rep) = NA ->
  main ocr contents listing = Raise (int_error NA).
Proof.
  intros Hsplit Hprev Hna. unfold main. rewrite load_reports_texts. simpl.
  replace (map_result analyze_report (report_texts contents)) with
    (@Raise (list (PropertyRecord * Z * pystr)) (int_error NA)); [reflexivity |].
  symmetry. apply map_result_Raise. exists l1, rep, l2.
  split; [exact Hsplit |]. split; [| by apply analyze_report_NA].
  eapply Forall_impl; [| exact Hprev]. intros r. apply analyze_report_ok_iff.
Qed.
End MainTheorems.

(** ** The scenario of the spec *)

Definition sample_report : pystr :=
  py "Property ID: 42" ++ [NL] ++ py "Location: 1 Main St" ++ [NL] ++
  py "Year Built: 1985" ++ [NL] ++ py "Condition: Water damage observed" ++ [NL] ++
  py "Estimated Value: $100,000" ++ [NL] ++ py "Hazards: Flood zone".

Lemma sample_report_score :
  score_risk (parse_report sample_report) =
  Ok (9%Z, py "Water damage, Flood risk, Old construction").
Proof. vm_compute. reflexivity. Qed.

(** C10: The report of the spec (water damage, flood zone, built in
    1985) scores 9 and, whatever image is merged with it, is classified
    High and rejected. *)
Theorem spec_scenario (ocr : pystr -> result pystr) (listing : list pystr)
    (rows : list UnderwritingRow) :
  main ocr sample_report listing = Ok rows ->
  exists row, rows = [row] /\ risk_score row = 9%Z /\
    row_risk_level row = High /\ underwriting_decision row = Reject.
Proof.
  intros H. apply main_rows_spec in H.
  replace (report_texts sample_report) with [sample_report] in H by (vm_compute; reflexivity).
  inversion H as [|rep row ? ? (_ & Hs & Himg & Ht & Hc) Hnil]; subst.
  inversion Hnil; subst. rewrite sample_report_score in Hs. injection Hs as Hrs _.
  symmetry in Hrs. exists row. split; [reflexivity |]. split; [exact Hrs |]. rewrite Hrs in Ht.
  destruct (classify_risk_tiers (total_risk_score row)) as [[_ Hhigh] _].
  rewrite Hhigh in Hc by lia. injection Hc as <- <-. auto.
Qed.

(** ** Witnesses *)

Definition finding (file : pystr) (score : Z) : ImageFinding :=
  {| image_file := file; ocr_text := []; image_risk_score := score; image_risk_factors := [] |}.

Definition record_1023 : PropertyRecord := {|
  property_id := py "1023"; location := py "5 Pine Rd"; year_built := py "1990";
  condition := py "Fair"; estimated_value := py "120,000"; hazards := py "None" |}.

Lemma reconcile_no_match_witness :
  exists row, combine_one [finding (py "9999.png") 2] (record_1023, 2%Z, py "Old construction") = Ok row /\
    row_image_file row = NA /\ row_image_risk_score row = 0%Z /\ total_risk_score row = 2%Z.
Proof. apply reconcile_no_match; [discriminate | repeat constructor]. Defined.

Lemma reconcile_unique_match_witness :
  exists row, combine_one [finding (py "1023_front.jpg") 3; finding (py "9999.png") 2]
                (record_1023, 2%Z, py "Old construction") = Ok row /\
    row_image_file row = image_file (finding (py "1023_front.jpg") 3) /\
    row_image_risk_score row = image_risk_score (finding (py "1023_front.jpg") 3) /\
    total_risk_score row = (2 + image_risk_score (finding (py "1023_front.jpg") 3))%Z.
Proof. apply (reconcile_unique_match _ _ _ _ (finding (py "1023_front.jpg") 3)). reflexivity. Defined.

Lemma reconcile_ambiguous_witness :
  combine_one [finding (py "1023_front.jpg") 3; finding (py "1023_back.jpg") 0]
    (record_1023, 2%Z, py "Old construction") = Raise series_truth_error.
Proof. apply reconcile_ambiguous. simpl. lia. Defined.

Lemma main_rows_witness :
  exists rows, main stub_ocr sample_report sample_listing = Ok rows /\
    Forall2 (fun rep row =>
      row_property row = parse_report rep /\
      score_risk (parse_report rep) = Ok (risk_score row, risk_factors row) /\
      (0 <= row_image_risk_score row <= 5)%Z /\
      total_risk_score row = (risk_score row + row_image_risk_score row)%Z /\
      classify_risk (total_risk_score row) = (row_risk_level row, underwriting_decision row))
      (report_texts sample_report) rows.
Proof.
  destruct (main stub_ocr sample_report sample_listing) as [rows|e] eqn:E;
    [| vm_compute in E; discriminate].
  exists rows. split; [reflexivity | exact (main_rows stub_ocr _ _ _ E)].
Defined.

Lemma spec_scenario_witness :
  exists row, main stub_ocr sample_report sample_listing = Ok [row] /\
    risk_score row = 9%Z /\ row_risk_level row = High /\ underwriting_decision row = Reject.
Proof.
  destruct (main stub_ocr sample_report sample_listing) as [rows|e] eqn:E;
    [| vm_compute in E; discriminate].
  destruct (spec_scenario stub_ocr sample_listing rows E) as (row & -> & Hrest).
  exists row. auto.
Defined.

Lemma main_no_images_witness :
  main stub_ocr sample_report [py "notes.txt"] = Raise (KeyError (py "Image File")).
Proof.
  apply main_no_images; [reflexivity |].
  replace (report_texts sample_report) with [sample_report] by (vm_compute; reflexivity).
  constructor; [intros Hn; vm_compute in Hn; discriminate | constructor].
Defined.

Lemma main_bad_report_aborts_witness :
  main stub_ocr (sample_report ++ REPORT_SEP ++ py "Property ID: 7") sample_listing =
  Raise (int_error NA).
Proof.
  apply (main_bad_report_aborts _ _ _ [sample_report] (py "Property ID: 7") []).
  - vm_compute. reflexivity.
  - constructor; [vm_compute; discriminate | constructor].
  - vm_compute. reflexivity.
Defined.
