(* ===== verification/Batch.v ===== *)
(** * Batch: the per-record specification of the pipeline, and [main] refining it

    The spec describes the pipeline as a function [run] from the
    reports and the image findings to one [UnderwritingRecord] per
    report, in report order (spec sections 3, 4.4 and 4.6): each record
    is the parsed report, its text assessment, the image it is matched
    with (the first image whose file name contains the Property ID, or
    none) and the classification of the total.  [run] below is that
    function, with the recovery policy the spec asks for on an
    unparseable year (the old-construction rule is skipped).  [row_of]
    is the abstraction that lays a record out as the fifteen columns the
    code writes.

    [main_refines_run] relates the code to it exactly: [main] returns
    precisely when every report has a four-digit year, the image scan
    returns a non-empty table and no Property ID is contained in two
    image file names; and then its rows are the rows of [run] on the
    reports and the scanned images.  Outside that domain it raises.
    [main_listing_order] adds that the outcome does not depend on the
    order of the directory listing, through the [Proper] instance
    [main_listing_proper] for permutations and [same_return]. *)

From stdpp Require Import base list strings decidable.
From Stdlib Require Import ZArith Lia Ascii.
From S2P Require Import Prelude PyStr Regex Rules TextExtractor TextRiskScorer RiskClassifier ImageRiskScanner Pipeline.

Open Scope py_scope.

(** ** The specification *)

(** The spec's [UnderwritingRecord]: the record, the text assessment,
    the matched image (absent when none matches) and the classification
    of the total. *)
Record UnderwritingRecord := {
  u_record : PropertyRecord;
  u_text_score : Z;
  u_text_reasons : list pystr;
  u_image : option ImageFinding;
  u_total : Z;
  u_tier : risk_level;
  u_decision : decision
}.

(** The match rule of the spec: the identifier is a substring of the
    file name. *)
Definition matches (r : PropertyRecord) (f : ImageFinding) : bool :=
  contains (property_id r) (image_file f).

(** The reconciliation of the spec with its deterministic tie-break:
    the first matching finding, in the order of the image table. *)
Definition reconcile (imgs : list ImageFinding) (r : PropertyRecord) : option ImageFinding :=
  head (filter (fun f => matches r f = true) imgs).

Definition year_of (r : PropertyRecord) : option Z :=
  match py_int (year_built r) with Ok y => Some y | Raise _ => None end.

(** The text assessment of the spec: the rule table, the old-construction
    rule skipped when the year does not parse. *)
Definition assess_text (r : PropertyRecord) : Z * list pystr :=
  match year_of r with
  | Some y => (rules_score text_rules (r, y), rules_reasons text_rules (r, y))
  | None =>
      (rules_score [water_damage_rule; flood_rule] (r, 0%Z),
       rules_reasons [water_damage_rule; flood_rule] (r, 0%Z))
  end.

Definition image_score_of (m : option ImageFinding) : Z := from_option image_risk_score 0%Z m.

(** The record of one parsed report. *)
Definition assess (imgs : list ImageFinding) (r : PropertyRecord) : UnderwritingRecord :=
  let total := ((assess_text r).1 + image_score_of (reconcile imgs r))%Z in
  {| u_record := r; u_text_score := (assess_text r).1; u_text_reasons := (assess_text r).2;
     u_image := reconcile imgs r; u_total := total;
     u_tier := (classify_risk total).1; u_decision := (classify_risk total).2 |}.

Definition spec_record (imgs : list ImageFinding) (rep : pystr) : UnderwritingRecord :=
  assess imgs (parse_report rep).

Definition run (reports : list pystr) (imgs : list ImageFinding) : list UnderwritingRecord :=
  map (spec_record imgs) reports.

(** The columns the code writes for a record: an absent image is
    written as ["N/A"], [""], 0 and [""], the reasons joined by [", "]. *)
Definition row_of (u : UnderwritingRecord) : UnderwritingRow :=
  let reason := join (py ", ") (u_text_reasons u) in
  match u_image u with
  | Some f => make_row (u_record u) (u_text_score u) reason (image_file f) (ocr_text f)
                (image_risk_score f) (image_risk_factors f) (u_total u)
  | None => make_row (u_record u) (u_text_score u) reason NA [] 0 [] (u_total u)
  end.

(** The inputs on which [main] returns. *)
Definition main_domain (reports : list pystr) (imgs : list ImageFinding) : Prop :=
  imgs <> [] /\
  Forall (fun rep => year_built (parse_report rep) <> NA) reports /\
  Forall (fun rep => length (filter (fun f => matches (parse_report rep) f = true) imgs) <= 1)
    reports.

(** Two outcomes of a computation return the same value, or both
    raise (possibly different exceptions). *)
Definition same_return {A} (r1 r2 : result A) : Prop := forall a, r1 = Ok a <-> r2 = Ok a.

(** ** The code on the domain *)

(** What [analyze_report] stores for a parsed record: the text
    assessment of the spec, the reasons joined. *)
Definition text_result (r : PropertyRecord) : PropertyRecord * Z * pystr :=
  (r, (assess_text r).1, join (py ", ") (assess_text r).2).

Lemma analyze_report_spec (rep : pystr) :
  year_built (parse_report rep) <> NA -> analyze_report rep = Ok (text_result (parse_report rep)).
Proof.
  intros Hna. destruct (py_int_parsed_year rep Hna) as (y & Hy & _).
  unfold analyze_report, text_result, assess_text, year_of.
  by rewrite score_risk_eval, Hy.
Qed.

Lemma combine_one_spec (imgs : list ImageFinding) (r : PropertyRecord) :
  imgs <> [] -> length (filter (fun f => matches r f = true) imgs) <= 1 ->
  combine_one imgs (text_result r) = Ok (row_of (assess imgs r)).
Proof.
  intros Hne Hle. unfold combine_one, text_result.
  rewrite image_lookup_nonempty by exact Hne. simpl.
  unfold row_of, assess, reconcile, matches in *. simpl.
  destruct (filter _ imgs) as [|m [|m' rest]]; simpl in *; [by rewrite Z.add_0_r | reflexivity | lia].
Qed.

(** A row that [combine_one] returns needs a non-empty image table and
    at most one match. *)
Lemma combine_one_domain (imgs : list ImageFinding) (r : PropertyRecord) (s : Z) (reason : pystr) :
  is_ok (combine_one imgs (r, s, reason)) = true ->
  imgs <> [] /\ length (filter (fun f => matches r f = true) imgs) <= 1.
Proof.
  unfold combine_one. destruct imgs as [|g imgs]; [discriminate |]. simpl.
  unfold matches. destruct (filter _ _) as [|m [|m' rest]]; simpl; intros H; try discriminate;
    split; (discriminate || lia).
Qed.

Section Refinement.
Variable ocr : pystr -> result pystr.

Lemma main_eq (contents : pystr) (listing : list pystr) :
  main ocr contents listing =
  (results <- map_result analyze_report (report_texts contents) ;;
   imgs <- analyze_images ocr IMAGE_DIR listing ;;
   map_result (combine_one imgs) results).
Proof. reflexivity. Qed.

Lemma main_on_domain (contents : pystr) (listing : list pystr) (imgs : list ImageFinding) :
  analyze_images ocr IMAGE_DIR listing = Ok imgs -> main_domain (report_texts contents) imgs ->
  main ocr contents listing = Ok (map row_of (run (report_texts contents) imgs)).
Proof.
  intros Himgs (Hne & Hyears & Hmatch). rewrite main_eq.
  rewrite (map_result_map _ (fun rep => text_result (parse_report rep))).
  2: { eapply Forall_impl; [| exact Hyears]. intros rep. apply analyze_report_spec. }
  simpl. rewrite Himgs. simpl. unfold run, spec_record. rewrite !map_map.
  rewrite map_result_fmap. apply map_result_map.
  eapply Forall_impl; [| exact Hmatch]. intros rep Hle. by apply combine_one_spec.
Qed.

Lemma main_Ok_domain (contents : pystr) (listing : list pystr) (rows : list UnderwritingRow) :
  main ocr contents listing = Ok rows ->
  exists imgs, analyze_images ocr IMAGE_DIR listing = Ok imgs /\
    main_domain (report_texts contents) imgs.
Proof.
  rewrite main_eq. intros H. inv_bind. rename x into results, x0 into imgs.
  exists imgs. split; [exact H1 |].
  assert (Hyears : Forall (fun rep => year_built (parse_report rep) <> NA) (report_texts contents)).
  { eapply Forall_impl; [| exact (map_result_Ok_each _ _ _ H0)]. intros rep.
    apply analyze_report_ok_iff. }
  rewrite (map_result_map _ (fun rep => text_result (parse_report rep))) in H0.
  2: { eapply Forall_impl; [| exact Hyears]. intros rep. apply analyze_report_spec. }
  injection H0 as <-. rewrite map_result_fmap in H. apply map_result_Ok_each in H.
  assert (Hall : Forall (fun rep => imgs <> [] /\
            length (filter (fun f => matches (parse_report rep) f = true) imgs) <= 1)
            (report_texts contents)).
  { eapply Forall_impl; [| exact H]. intros rep. apply combine_one_domain. }
  split; [| split; [exact Hyears | by eapply Forall_impl; [| exact Hall]; intros ? []]].
  pose proof (split_go_nonempty REPORT_SEP contents []) as Hne. unfold report_texts in Hall.
  destruct (split_go REPORT_SEP contents []) as [|rep reps]; [done |].
  by inversion Hall as [|? ? [? _] _].
Qed.
End Refinement.

(** ** The order of the directory listing *)

#[export] Instance same_return_equiv {A} : Equivalence (@same_return A).
Proof.
  split.
  - intros r a. done.
  - intros r1 r2 H a. by rewrite (H a).
  - intros r1 r2 r3 H12 H23 a. by rewrite (H12 a), (H23 a).
Qed.

Lemma analyze_images_perm (ocr : pystr -> result pystr) (l1 l2 : list pystr) (imgs : list ImageFinding) :
  l1 ≡ₚ l2 -> analyze_images ocr IMAGE_DIR l1 = Ok imgs ->
  exists imgs', analyze_images ocr IMAGE_DIR l2 = Ok imgs' /\ imgs ≡ₚ imgs'.
Proof.
  intros Hp. rewrite !analyze_images_filter. apply map_result_Permutation. by rewrite Hp.
Qed.

Lemma main_domain_perm (reports : list pystr) (imgs imgs' : list ImageFinding) :
  imgs ≡ₚ imgs' -> main_domain reports imgs -> main_domain reports imgs'.
Proof.
  intros Hp (Hne & Hyears & Hmatch). split; [| split; [exact Hyears |]].
  - intros ->. by apply Hne, Permutation_nil_r.
  - eapply Forall_impl; [| exact Hmatch]. intros rep. cbv beta. by rewrite Hp.
Qed.

(** With at most one match per report, the records do not depend on
    the order of the image table. *)
Lemma run_perm (reports : list pystr) (imgs imgs' : list ImageFinding) :
  imgs ≡ₚ imgs' -> main_domain reports imgs -> run reports imgs = run reports imgs'.
Proof.
  intros Hp (_ & _ & Hmatch). unfold run. apply list_eq_Forall2, Forall2_fmap, Forall_Forall2_diag.
  eapply Forall_impl; [| exact Hmatch]. intros rep Hle.
  unfold spec_record, assess, reconcile. by rewrite (Permutation_short _ _ (filter_Permutation _ _ _ Hp) Hle).
Qed.

Lemma main_perm (ocr : pystr -> result pystr) (contents : pystr) (l1 l2 : list pystr)
    (rows : list UnderwritingRow) :
  l1 ≡ₚ l2 -> main ocr contents l1 = Ok rows -> main ocr contents l2 = Ok rows.
Proof.
  intros Hp H. destruct (main_Ok_domain ocr _ _ _ H) as (imgs & Himgs & Hdom).
  rewrite (main_on_domain ocr _ _ _ Himgs Hdom) in H. injection H as <-.
  destruct (analyze_images_perm ocr _ _ _ Hp Himgs) as (imgs' & Himgs' & Hp').
  rewrite (run_perm _ _ _ Hp' Hdom).
  exact (main_on_domain ocr _ _ _ Himgs' (main_domain_perm _ _ _ Hp' Hdom)).
Qed.

(** [main] respects the permutations of the listing: what it returns
    does not depend on the order [os.listdir] gives the files. *)
#[export] Instance main_listing_proper (ocr : pystr -> result pystr) (contents : pystr) :
  Proper ((≡ₚ) ==> same_return) (main ocr contents).
Proof.
  intros l1 l2 Hp rows. split; apply main_perm; [exact Hp | by symmetry].
Qed.

(** ** Refinement *)

Section RefinementTheorems.
Variable ocr : pystr -> result pystr.

(** C28: [main] refines the spec's [run]: it returns exactly on the
    inputs where the image scan returns a non-empty table, every report
    has a four-digit Year Built and no Property ID is in two image file
    names, and then its rows are those of [run] on the reports and the
    scanned images, laid out by [row_of]. *)
Theorem main_refines_run (contents : pystr) (listing : list pystr) (rows : list UnderwritingRow) :
  main ocr contents listing = Ok rows <->
  exists imgs, analyze_images ocr IMAGE_DIR listing = Ok imgs /\
    main_domain (report_texts contents) imgs /\
    rows = map row_of (run (report_texts contents) imgs).
Proof.
  split.
  - intros H. destruct (main_Ok_domain ocr _ _ _ H) as (imgs & Himgs & Hdom).
    exists imgs. split; [exact Himgs |]. split; [exact Hdom |].
    rewrite (main_on_domain ocr _ _ _ Himgs Hdom) in H. by injection H.
  - intros (imgs & Himgs & Hdom & ->). exact (main_on_domain ocr _ _ _ Himgs Hdom).
Qed.

(** C32: Whether the program completes, and the rows it produces, do
    not depend on the order in which [os.listdir] returns the image
    files (the spec's deterministic join): a permutation of the listing
    gives the same rows. *)
Theorem main_listing_order (contents : pystr) (l1 l2 : list pystr) (rows : list UnderwritingRow) :
  l1 ≡ₚ l2 -> (main ocr contents l1 = Ok rows <-> main ocr contents l2 = Ok rows).
Proof. intros Hp. exact (main_listing_proper ocr contents l1 l2 Hp rows). Qed.
End RefinementTheorems.

(** ** Witnesses *)

Lemma main_refines_run_witness :
  exists rows, main stub_ocr sample_report sample_listing = Ok rows /\
    exists imgs, analyze_images stub_ocr IMAGE_DIR sample_listing = Ok imgs /\
      main_domain (report_texts sample_report) imgs /\
      rows = map row_of (run (report_texts sample_report) imgs).
Proof.
  destruct (main stub_ocr sample_report sample_listing) as [rows|e] eqn:E;
    [| vm_compute in E; discriminate].
  exists rows. split; [reflexivity |]. by apply (main_refines_run stub_ocr).
Defined.

Lemma main_listing_order_witness :
  exists rows, main stub_ocr sample_report sample_listing = Ok rows /\
    main stub_ocr sample_report (rev sample_listing) = Ok rows.
Proof.
  destruct (main stub_ocr sample_report sample_listing) as [rows|e] eqn:E;
    [| vm_compute in E; discriminate].
  exists rows. split; [reflexivity |].
  apply (main_listing_order stub_ocr sample_report sample_listing); [apply Permutation_rev | exact E].
Defined.
