(* ===== verification/CsvReport.v ===== *)
(** * CsvReport: the report artifact, [pd.DataFrame(combined).to_csv(..., index=False)]
    (src/app.py, lines 138-139)

    The main block builds a DataFrame from the list of row dictionaries
    and writes it as CSV without the index.  The columns are the keys of
    the dictionaries in insertion order (lines 56-61, 105-106, 119-134);
    pandas writes a header line with the column names and then one line
    per row, through Python's [csv] writer with its defaults: delimiter
    [,], quote character [DQ] (the double quote), [QUOTE_MINIMAL] (a field is quoted when it
    holds the delimiter, the quote character, a line feed or a carriage
    return, and a quote inside it is doubled) and the line terminator
    [os.linesep], a line feed on POSIX.  Integers are written as [str]
    writes them.

    - [z_str] is [str(int)]; [py_int_str] shows [int()] reads it back;
    - [csv_field], [csv_line] and [to_csv] are the writer;
    - [read_csv] is a reader of the CSV dialect (the state machine of
      [csv.reader] for these defaults), used to state what the file
      holds: [read_csv (to_csv rows)] is the header followed by the
      cells of every row, in order.
    The console output ([print]) is not modelled. *)

From stdpp Require Import base list strings decidable.
From Stdlib Require Import ZArith Lia Ascii.
From S2P Require Import Prelude PyStr TextExtractor RiskClassifier ImageRiskScanner Pipeline Batch.

Open Scope py_scope.

(** ** Integers as [str] writes them *)

Definition digit_char (d : Z) : ascii := ascii_of_nat (48 + Z.to_nat d).
Arguments digit_char : simpl never.

(** The decimal digits of [n >= 0], most significant first; [fuel]
    bounds the number of digits. *)
Fixpoint digits_of (fuel : nat) (n : Z) : pystr :=
  match fuel with
  | O => []
  | S f => (if (n <? 10)%Z then [] else digits_of f (n / 10)) ++ [digit_char (n mod 10)]
  end.

(** [str(z)] for an integer: a minus sign, then the digits. *)
Definition z_str (z : Z) : pystr :=
  if (z <? 0)%Z then "-"%char :: digits_of (S (Z.to_nat (- z))) (- z)
  else digits_of (S (Z.to_nat z)) z.

(** ** The CSV writer *)

Definition DQ : ascii := "034"%char.
Definition COMMA : ascii := ","%char.
Definition CR : ascii := "013"%char.

(** The characters that make [QUOTE_MINIMAL] quote a field. *)
Definition special (c : ascii) : bool :=
  bool_decide (c = COMMA) || bool_decide (c = DQ) || bool_decide (c = NL) || bool_decide (c = CR).

(** [doublequote=True]: a quote inside a quoted field is written twice. *)
Fixpoint escape (s : pystr) : pystr :=
  match s with
  | [] => []
  | c :: s' => if bool_decide (c = DQ) then DQ :: DQ :: escape s' else c :: escape s'
  end.

Definition csv_field (s : pystr) : pystr :=
  if existsb special s then DQ :: escape s ++ [DQ] else s.

Definition csv_line (fields : list pystr) : pystr :=
  join [COMMA] (map csv_field fields) ++ [NL].

(** The columns of [final_df]: the keys of the row dictionary, in the
    order the code inserts them. *)
Definition columns : list pystr :=
  [py "Property ID"; py "Location"; py "Year Built"; py "Condition";
   py "Estimated Value"; py "Hazards"; py "Risk Score"; py "Risk Factors";
   py "Image File"; py "Image OCR Text"; py "Image Risk Score"; py "Image Risk Factors";
   py "Total Risk Score"; py "Risk Level"; py "Underwriting Decision"].

(** The cells of one row, in column order. *)
Definition row_cells (row : UnderwritingRow) : list pystr :=
  let r := row_property row in
  [property_id r; location r; year_built r; condition r; estimated_value r; hazards r;
   z_str (risk_score row); risk_factors row; row_image_file row; image_ocr_text row;
   z_str (row_image_risk_score row); row_image_risk_factors row;
   z_str (total_risk_score row); level_name (row_risk_level row);
   decision_name (underwriting_decision row)].

Definition to_csv (rows : list UnderwritingRow) : pystr :=
  concat (map csv_line (columns :: map row_cells rows)).

(** The main block with its last step: the content of
    [final_underwriting_report.csv]. *)
Definition main_report (ocr : pystr -> result pystr) (contents : pystr) (listing : list pystr) :
    result pystr :=
  rows <- main ocr contents listing ;;
  Ok (to_csv rows).

(** ** A reader of the dialect *)

(** Where the reader is inside a field. *)
Inductive rstate := FieldStart | Unquoted | Quoted | QuoteSeen.

#[export] Instance rstate_eq_dec : EqDecision rstate.
Proof. solve_decision. Defined.

(** [cur] is the field read so far and [row] the fields of the line so
    far, both reversed. *)
Fixpoint read_go (s : pystr) (st : rstate) (cur : pystr) (row : list pystr) : list (list pystr) :=
  match s with
  | [] =>
      match st, cur, row with
      | FieldStart, [], [] => []
      | _, _, _ => [rev (rev cur :: row)]
      end
  | c :: s' =>
      match st with
      | Quoted =>
          if bool_decide (c = DQ) then read_go s' QuoteSeen cur row
          else read_go s' Quoted (c :: cur) row
      | _ =>
          if bool_decide (c = DQ) && bool_decide (st = FieldStart) then read_go s' Quoted cur row
          else if bool_decide (c = DQ) && bool_decide (st = QuoteSeen) then read_go s' Quoted (DQ :: cur) row
          else if bool_decide (c = COMMA) then read_go s' FieldStart [] (rev cur :: row)
          else if bool_decide (c = NL) then rev (rev cur :: row) :: read_go s' FieldStart [] []
          else read_go s' Unquoted (c :: cur) row
      end
  end.

Definition read_csv (s : pystr) : list (list pystr) := read_go s FieldStart [] [].

(** ** [int()] reads back what [str] writes *)

Lemma digit_char_spec (d : Z) :
  (0 <= d < 10)%Z -> is_digit (digit_char d) = true /\ digit_value (digit_char d) = d.
Proof.
  intros Hd. unfold is_digit, digit_value, digit_char.
  rewrite nat_ascii_embedding by lia. rewrite andb_true_iff, !Nat.leb_le. lia.
Qed.

Lemma digits_acc_app (a : Z) (l1 l2 : pystr) :
  digits_acc a (l1 ++ l2) = digits_acc (digits_acc a l1) l2.
Proof. revert a. induction l1 as [|c l1 IH]; intros a; simpl; [done |]. by case_bool_decide. Qed.

Lemma digits_acc_digit (a : Z) (c : ascii) (l : pystr) :
  is_digit c = true -> digits_acc a (c :: l) = digits_acc (10 * a + digit_value c) l.
Proof.
  intros Hd. destruct (digit_not_special _ Hd) as [Hu _]. cbn [digits_acc].
  by rewrite bool_decide_eq_false_2 by exact Hu.
Qed.

Lemma digits_of_spec (fuel : nat) (n : Z) :
  (0 <= n)%Z -> Z.to_nat n < fuel ->
  digits_of fuel n <> [] /\ Forall (fun c => is_digit c = true) (digits_of fuel n) /\
  digits_acc 0 (digits_of fuel n) = n.
Proof.
  revert n. induction fuel as [|f IH]; intros n Hn Hf; [lia |]. cbn [digits_of].
  pose proof (Z.mod_pos_bound n 10) as Hm.
  destruct (digit_char_spec (n mod 10)) as [Hd Hv]; [lia |].
  destruct (Z.ltb_spec n 10).
  - cbn [app]. split; [done |]. split; [by constructor |].
    rewrite digits_acc_digit, Hv by exact Hd. cbn [digits_acc]. rewrite Z.mod_small; lia.
  - pose proof (Z.div_mod n 10 ltac:(lia)) as Hdm.
    destruct (IH (n / 10)%Z) as (Hne & Hall & Hacc); [lia | |].
    { assert (Z.to_nat (n / 10) < Z.to_nat n); [apply Z2Nat.inj_lt | ]; lia. }
    split; [by destruct (digits_of f (n / 10)) |]. split.
    + apply Forall_app. split; [exact Hall | by constructor].
    + rewrite digits_acc_app, Hacc, digits_acc_digit, Hv by exact Hd. cbn [digits_acc]. lia.
Qed.

Lemma py_int_str (z : Z) : py_int (z_str z) = Ok z.
Proof.
  unfold z_str. destruct (Z.ltb_spec z 0) as [Hneg | Hpos].
  - destruct (digits_of_spec (S (Z.to_nat (- z))) (- z)) as (Hne & Hall & Hacc); [lia | lia |].
    unfold py_int. rewrite strip_no_space.
    2: { constructor; [reflexivity |]. eapply Forall_impl; [| exact Hall]. apply digit_not_space. }
    change (int_sign ("-"%char :: ?b)) with ((-1)%Z, b). cbn beta iota.
    rewrite (int_body_ok_digits _ Hne Hall), Hacc. f_equal. lia.
  - destruct (digits_of_spec (S (Z.to_nat z)) z) as (Hne & Hall & Hacc); [lia | lia |].
    rewrite py_int_digits by assumption. by rewrite Hacc.
Qed.

(** ** The reader reads back what the writer writes *)

Lemma special_false (c : ascii) :
  special c = false -> c <> COMMA /\ c <> DQ /\ c <> NL.
Proof. unfold special. rewrite !orb_false_iff, !bool_decide_eq_false. tauto. Qed.

Lemma existsb_special_false (f : pystr) :
  existsb special f = false -> Forall (fun c => special c = false) f.
Proof.
  induction f as [|c f IH]; simpl; [constructor |].
  rewrite orb_false_iff. intros [Hc Hf]. constructor; [exact Hc | exact (IH Hf)].
Qed.

(** An ordinary character outside quotes is part of the field. *)
Lemma read_go_plain (c : ascii) (s cur : pystr) (row : list pystr) (st : rstate) :
  special c = false -> st <> Quoted ->
  read_go (c :: s) st cur row = read_go s Unquoted (c :: cur) row.
Proof.
  intros Hc Hst. destruct (special_false c Hc) as (H1 & H2 & H3). cbn [read_go].
  rewrite (bool_decide_eq_false_2 (c = DQ)), (bool_decide_eq_false_2 (c = COMMA)),
    (bool_decide_eq_false_2 (c = NL)) by assumption.
  by destruct st.
Qed.

Lemma read_unquoted (f k cur : pystr) (row : list pystr) :
  Forall (fun c => special c = false) f ->
  read_go (f ++ k) Unquoted cur row = read_go k Unquoted (rev f ++ cur) row.
Proof.
  intros Hf. revert cur. induction Hf as [|c f Hc _ IH]; intros cur; [done |].
  cbn [app]. rewrite read_go_plain by done. rewrite IH. cbn [rev]. by rewrite <- app_assoc.
Qed.

(** A quote at the start of a field opens a quoted field. *)
Lemma read_start_dq (s cur : pystr) (row : list pystr) :
  read_go (DQ :: s) FieldStart cur row = read_go s Quoted cur row.
Proof. reflexivity. Qed.

Lemma read_quoted_dq (s cur : pystr) (row : list pystr) :
  read_go (DQ :: s) Quoted cur row = read_go s QuoteSeen cur row.
Proof. reflexivity. Qed.

(** A doubled quote inside quotes is one quote of the field. *)
Lemma read_quote_seen_dq (s cur : pystr) (row : list pystr) :
  read_go (DQ :: s) QuoteSeen cur row = read_go s Quoted (DQ :: cur) row.
Proof. reflexivity. Qed.

Lemma read_quoted_plain (c : ascii) (s cur : pystr) (row : list pystr) :
  c <> DQ -> read_go (c :: s) Quoted cur row = read_go s Quoted (c :: cur) row.
Proof. intros Hc. cbn [read_go]. by rewrite bool_decide_eq_false_2. Qed.

Lemma read_quoted (f k cur : pystr) (row : list pystr) :
  read_go (escape f ++ DQ :: k) Quoted cur row = read_go k QuoteSeen (rev f ++ cur) row.
Proof.
  revert cur. induction f as [|c f IH]; intros cur; [done |]. cbn [escape rev].
  destruct (decide (c = DQ)) as [-> | Hc].
  - rewrite bool_decide_eq_true_2 by done. cbn [app].
    rewrite read_quoted_dq, read_quote_seen_dq, IH. by rewrite <- app_assoc.
  - rewrite bool_decide_eq_false_2 by done. cbn [app].
    rewrite read_quoted_plain, IH by done. by rewrite <- app_assoc.
Qed.

(** A delimiter or a line end after a field closes it. *)
Lemma read_comma (k cur : pystr) (row : list pystr) (st : rstate) :
  st <> Quoted -> read_go (COMMA :: k) st cur row = read_go k FieldStart [] (rev cur :: row).
Proof. by destruct st. Qed.

Lemma read_nl (k cur : pystr) (row : list pystr) (st : rstate) :
  st <> Quoted ->
  read_go (NL :: k) st cur row = rev (rev cur :: row) :: read_go k FieldStart [] [].
Proof. by destruct st. Qed.

(** A written field is read back whole, and the reader is left outside
    quotes. *)
Lemma read_field (f k : pystr) (row : list pystr) :
  exists st, st <> Quoted /\ read_go (csv_field f ++ k) FieldStart [] row = read_go k st (rev f) row.
Proof.
  unfold csv_field. destruct (existsb special f) eqn:E.
  - exists QuoteSeen. split; [done |]. cbn [app]. rewrite <- app_assoc.
    rewrite read_start_dq. cbn [app]. rewrite read_quoted. by rewrite app_nil_r.
  - apply existsb_special_false in E. destruct E as [|c f Hc Hf]; [by exists FieldStart |].
    exists Unquoted. split; [done |]. cbn [app]. rewrite read_go_plain by done.
    rewrite read_unquoted by exact Hf. reflexivity.
Qed.

Lemma read_fields (cells : list pystr) (row : list pystr) (k : pystr) :
  cells <> [] ->
  read_go (join [COMMA] (map csv_field cells) ++ NL :: k) FieldStart [] row =
  (rev row ++ cells) :: read_go k FieldStart [] [].
Proof.
  revert row. induction cells as [|c cells IH]; intros row Hne; [done |].
  destruct cells as [|c' cells].
  - cbn [map join]. destruct (read_field c (NL :: k) row) as (st & Hst & ->).
    rewrite read_nl by exact Hst. by rewrite rev_involutive.
  - change (join [COMMA] (map csv_field (c :: c' :: cells))) with
      (csv_field c ++ [COMMA] ++ join [COMMA] (map csv_field (c' :: cells))).
    rewrite <- !app_assoc. cbn [app].
    destruct (read_field c (COMMA :: join [COMMA] (map csv_field (c' :: cells)) ++ NL :: k) row)
      as (st & Hst & ->).
    rewrite read_comma by exact Hst. rewrite rev_involutive, IH by done.
    cbn [rev]. by rewrite <- app_assoc.
Qed.

Lemma read_line (cells : list pystr) (k : pystr) :
  cells <> [] ->
  read_go (csv_line cells ++ k) FieldStart [] [] = cells :: read_go k FieldStart [] [].
Proof. intros Hne. unfold csv_line. rewrite <- app_assoc. by apply read_fields. Qed.

Lemma read_lines (ls : list (list pystr)) :
  Forall (fun l => l <> []) ls -> read_csv (concat (map csv_line ls)) = ls.
Proof.
  unfold read_csv. induction 1 as [|l ls Hl _ IH]; [done |].
  cbn [map concat]. by rewrite read_line, IH.
Qed.

Lemma to_csv_read (rows : list UnderwritingRow) :
  read_csv (to_csv rows) = columns :: map row_cells rows.
Proof.
  apply read_lines. constructor; [discriminate |].
  rewrite Forall_fmap. apply Forall_true. intros row. discriminate.
Qed.

(** A reader by column name, [csv.DictReader]: the first line names
    the columns, every later line is paired with it cell by cell. *)
Definition dict_rows (t : list (list pystr)) : list (list (pystr * pystr)) :=
  match t with
  | [] => []
  | header :: rows => map (zip header) rows
  end.

(** The fields of a record of the spec (section 3: the property record,
    the matched image finding and the risk assessment), each under the
    name of the column that holds it, integers as [str] writes them; an
    absent finding is written as no file (["N/A"]), no text, score 0 and
    no reasons. *)
Definition record_dict (u : UnderwritingRecord) : list (pystr * pystr) :=
  let r := u_record u in
  [(py "Property ID", property_id r); (py "Location", location r);
   (py "Year Built", year_built r); (py "Condition", condition r);
   (py "Estimated Value", estimated_value r); (py "Hazards", hazards r);
   (py "Risk Score", z_str (u_text_score u));
   (py "Risk Factors", join (py ", ") (u_text_reasons u));
   (py "Image File", from_option image_file NA (u_image u));
   (py "Image OCR Text", from_option ocr_text [] (u_image u));
   (py "Image Risk Score", z_str (image_score_of (u_image u)));
   (py "Image Risk Factors", from_option image_risk_factors [] (u_image u));
   (py "Total Risk Score", z_str (u_total u));
   (py "Risk Level", level_name (u_tier u));
   (py "Underwriting Decision", decision_name (u_decision u))].

(** ** The report file of a run *)

Section Report.
Variable ocr : pystr -> result pystr.

(** C29: The program writes its report whenever the OCR engine never
    raises, every report has a four-digit Year Built, the listing holds
    an image file and no Property ID is contained in the names of two
    image files. *)
Theorem main_report_completes (contents : pystr) (listing : list pystr) :
  (forall p, is_ok (ocr p) = true) ->
  Forall (fun rep => year_built (parse_report rep) <> NA) (report_texts contents) ->
  Exists (fun f => has_image_ext f = true) listing ->
  Forall (fun rep => length (filter (fun f => contains (property_id (parse_report rep)) f = true)
                               (filter (fun f => has_image_ext f = true) listing)) <= 1)
    (report_texts contents) ->
  exists csv, main_report ocr contents listing = Ok csv.
Proof.
  intros Hocr Hyears Himg Huniq.
  destruct (analyze_images_returns ocr IMAGE_DIR listing Hocr) as [imgs Himgs].
  destruct (analyze_images_findings ocr IMAGE_DIR listing imgs Himgs) as [Hnames _].
  assert (Hdom : main_domain (report_texts contents) imgs).
  { split; [| split; [exact Hyears |]].
    - intros ->. simpl in Hnames. apply Exists_exists in Himg as (f & Hf & Hext).
      apply (filter_nil_not_elem_of _ _ _ (eq_sym Hnames) Hext). by apply list_elem_of_In.
    - eapply Forall_impl; [| exact Huniq]. intros rep. cbv beta.
      rewrite <- Hnames, filter_map, length_map. unfold matches. done. }
  unfold main_report. rewrite (main_on_domain ocr _ _ _ Himgs Hdom). eauto.
Qed.

(** C30: When the program completes, the report file it writes, read
    by column name, gives for every report in file order the fields of
    the record the spec's [run] gives it: each of the fifteen columns
    holds the field its header names (the text score under "Risk Score",
    the total under "Total Risk Score", ...), and the columns come in
    the order the code creates the keys. *)
Theorem main_report_by_column (contents : pystr) (listing : list pystr) (csv : pystr) :
  main_report ocr contents listing = Ok csv ->
  exists imgs, analyze_images ocr IMAGE_DIR listing = Ok imgs /\
    main_domain (report_texts contents) imgs /\
    dict_rows (read_csv csv) = map record_dict (run (report_texts contents) imgs).
Proof.
  unfold main_report. intros H. inv_bind. subst csv. rename x into rows.
  destruct (main_Ok_domain ocr _ _ _ H0) as (imgs & Himgs & Hdom).
  rewrite (main_on_domain ocr _ _ _ Himgs Hdom) in H0. injection H0 as <-.
  exists imgs. split; [exact Himgs |]. split; [exact Hdom |].
  rewrite to_csv_read. cbn [dict_rows]. unfold run, spec_record. rewrite !map_map.
  apply map_ext. intros rep.
  unfold row_of, make_row, record_dict, image_score_of, spec_record, assess.
  cbn [u_image u_total u_tier u_decision].
  destruct (reconcile imgs (parse_report rep)), (classify_risk _); reflexivity.
Qed.
End Report.

(** ** Witnesses *)

Lemma main_report_completes_witness :
  exists csv, main_report stub_ocr sample_report sample_listing = Ok csv.
Proof.
  apply main_report_completes.
  - intros p. unfold stub_ocr. by case_bool_decide.
  - replace (report_texts sample_report) with [sample_report] by (vm_compute; reflexivity).
    constructor; [intros Hn; vm_compute in Hn; discriminate | constructor].
  - left. vm_compute. reflexivity.
  - replace (report_texts sample_report) with [sample_report] by (vm_compute; reflexivity).
    constructor; [apply Nat.leb_le; vm_compute; reflexivity | constructor].
Defined.

Lemma main_report_by_column_witness :
  exists csv, main_report stub_ocr sample_report sample_listing = Ok csv /\
    exists imgs, analyze_images stub_ocr IMAGE_DIR sample_listing = Ok imgs /\
      main_domain (report_texts sample_report) imgs /\
      dict_rows (read_csv csv) = map record_dict (run (report_texts sample_report) imgs).
Proof.
  destruct (main_report stub_ocr sample_report sample_listing) as [csv|e] eqn:E;
    [| vm_compute in E; discriminate].
  exists csv. split; [reflexivity |]. exact (main_report_by_column stub_ocr _ _ _ E).
Defined.

(** The row of the spec's scenario as it is written: the estimated
    value and the reasons hold commas, so these two fields are quoted. *)
Example spec_scenario_line :
  csv_line (row_cells (make_row (parse_report sample_report) 9
     (py "Water damage, Flood risk, Old construction") NA [] 0 [] 9)) =
  py "42,1 Main St,1985,Water damage observed," ++ [DQ] ++ py "100,000" ++ [DQ] ++
  py ",Flood zone,9," ++ [DQ] ++ py "Water damage, Flood risk, Old construction" ++ [DQ] ++
  py ",N/A,,0,,9,High,Reject" ++ [NL].
Proof. vm_compute. reflexivity. Qed.
